(** * Support Command Center (app.py): shallow embedding and verified properties

    The dashboard is one Streamlit script.  Every render pass runs [main]:
    it loads five tables through cached query functions, reshapes them with
    pandas and emits widgets.  This file embeds

    - the result records of the five queries (section 3 of the specification),
    - the pandas operations [main] applies to them, with the defaults the
      source relies on ([sort_values], [rolling(7).mean()], [pivot_table] /
      [reindex], [head], [nlargest], boolean masks),
    - the SQL expressions of [load_current_stats],
    - the [st.cache_resource] / [st.cache_data(ttl=300)] decorators as explicit
      state passing over a session state,
    - [render_metric_card] and [main], whose output is the list of widgets
      in the order the script emits them.

    Numbers: counts are [Z]; nullable floating-point columns are [option Q]
    ([None] is NaN / NULL), i.e. arithmetic is exact rational arithmetic. *)

From Stdlib Require Import ZArith QArith Qabs Qround Lqa String Ascii List Lia.
From stdpp Require Import base strings list sorting gmap pretty.

Local Open Scope string_scope.

(** ** Exceptions *)

(** An exception is identified with the text [str(e)] that [main] prints. *)
Definition Exception : Type := string.

Inductive result (A : Type) : Type :=
| Raise (e : Exception)
| Return (a : A).
Arguments Raise {A} e.
Arguments Return {A} a.

(** ** Characters and number formatting *)

Definition dq : string := String "034"%char EmptyString.
Definition nl : string := String "010"%char EmptyString.

Definition Qltb (x y : Q) : bool := negb (Qle_bool y x).

(** Round to the nearest integer, ties to the even neighbour: the rounding of
    Python's [format(x, '.0f')]. *)
Definition round_half_even (q : Q) : Z :=
  let n := Qnum q in
  let d := Zpos (Qden q) in
  let fl := (n / d)%Z in
  let r2 := (2 * (n mod d))%Z in
  if (r2 <? d)%Z then fl
  else if (d <? r2)%Z then (fl + 1)%Z
  else if Z.even fl then fl else (fl + 1)%Z.

(** [f"{x:.0f}"] for an entry [x] of the summary row.  The row is a
    nullable-float Series, a NULL entry is [pd.NA], and formatting [pd.NA]
    gives its repr whatever the format. *)
Definition format_f0 (x : option Q) : string :=
  match x with
  | None => "<NA>"
  | Some q =>
      (if Qltb q 0 then "-" else EmptyString)
        +:+ pretty (round_half_even (Qabs q))
  end.

(** [f"{x:.1f}"] for an entry [x] of the summary row. *)
Definition format_f1 (x : option Q) : string :=
  match x with
  | None => "<NA>"
  | Some q =>
      let t := round_half_even (Qabs q * 10) in
      (if Qltb q 0 then "-" else EmptyString)
        +:+ pretty (t / 10)%Z +:+ "." +:+ pretty (t mod 10)%Z
  end.

(** [f"{n:.0f}"] for a float holding the integer [n]. *)
Definition format_count (n : Z) : string := pretty n.

(** ** Data model *)

Module Daily.
(** A row of [dim_daily_metrics]; dates are day numbers. *)
Record t : Type := Row {
  created_date : Z;
  ticket_count : Z;
  csat_rate : option Q
}.
End Daily.

Module Agent.
(** A row of [dim_agent_performance]; months are month numbers. *)
Record t : Type := Row {
  agent_name : string;
  created_month : Z;
  tickets_handled : Z;
  csat_rate : option Q
}.
End Agent.

Module Stats.
(** The single row returned by [load_current_stats]. *)
Record t : Type := Row {
  total_tickets : Z;
  backlog : Z;
  avg_resolution_hours : option Q;
  same_day_pct : option Q;
  csat_rate : option Q;
  today_tickets : Z;
  yesterday_tickets : Z;
  fast_response_pct : option Q
}.
End Stats.

Module Tag.
(** A row of the tag analysis query. *)
Record t : Type := Row {
  tag : string;
  total_tickets : Z;
  avg_resolution : option Q;
  avg_csat : option Q
}.
End Tag.

Module Heat.
(** A row of the hourly heatmap query. *)
Record t : Type := Row {
  created_day_of_week : string;
  created_hour : Z;
  ticket_count : Z
}.
End Heat.

(** ** render_metric_card *)

(** A delta block of the page: [<div class=...>symbol delta</div>]. *)
Definition delta_block (delta_class delta_symbol delta : string) : string :=
  "<div class=" +:+ dq +:+ delta_class +:+ dq +:+ ">"
    +:+ delta_symbol +:+ " " +:+ delta +:+ "</div>".

(** The local [delta_html] of [render_metric_card]: [if delta:] is Python
    truthiness, so [None] and the empty string both give no delta block. *)
Definition delta_html (delta : option string) (delta_type : string) : string :=
  match delta with
  | Some (String _ _ as d) =>
      let delta_class :=
        if String.eqb delta_type "positive"
        then "metric-delta-positive" else "metric-delta-negative" in
      let delta_symbol :=
        if String.eqb delta_type "positive" then "↑" else "↓" in
      delta_block delta_class delta_symbol d
  | _ => EmptyString
  end.

(** The card around a given delta block. *)
Definition card_template (value label block : string) : string :=
  nl +:+ "    <div class=" +:+ dq +:+ "metric-card" +:+ dq +:+ ">" +:+ nl
  +:+ "        <div class=" +:+ dq +:+ "metric-value" +:+ dq +:+ ">"
  +:+ value +:+ "</div>" +:+ nl
  +:+ "        <div class=" +:+ dq +:+ "metric-label" +:+ dq +:+ ">"
  +:+ label +:+ "</div>" +:+ nl
  +:+ "        " +:+ block +:+ nl
  +:+ "    </div>" +:+ nl
  +:+ "    ".

Definition render_metric_card
    (value label : string) (delta : option string) (delta_type : string)
  : string :=
  card_template value label (delta_html delta delta_type).

(** ** The KPI cards of [main] *)

(** [stats['csat_rate'] > 65] used as a condition.  For a NULL rate the
    comparison is [pd.NA], whose truth value raises TypeError. *)
Definition csat_above_65 (stats : Stats.t) : result bool :=
  match Stats.csat_rate stats with
  | Some r => Return (Qltb 65 r)
  | None => Raise "boolean value of NA is ambiguous"
  end.

Definition csat_delta (stats : Stats.t) : result (option string) :=
  match csat_above_65 stats with
  | Raise e => Raise e
  | Return above => Return (if above then Some "2.3% vs last week" else None)
  end.

Definition csat_delta_type (stats : Stats.t) : result string :=
  match csat_above_65 stats with
  | Raise e => Raise e
  | Return above => Return (if above then "positive" else "negative")
  end.

(** The arguments are evaluated in order: the value text first (it never
    raises), then the two conditionals. *)
Definition csat_card (stats : Stats.t) : result string :=
  let value := format_f0 (Stats.csat_rate stats) +:+ "%" in
  match csat_delta stats with
  | Raise e => Raise e
  | Return delta =>
      match csat_delta_type stats with
      | Raise e => Raise e
      | Return delta_type =>
          Return (render_metric_card value "CSAT Score" delta delta_type)
      end
  end.

Definition backlog_status (stats : Stats.t) : string :=
  if (Stats.backlog stats <? 150)%Z then "positive" else "negative".

Definition backlog_card (stats : Stats.t) : string :=
  render_metric_card
    (format_count (Stats.backlog stats)) "Open Backlog" None
    (backlog_status stats).

Definition resolution_card (stats : Stats.t) : string :=
  render_metric_card
    (format_f1 (Stats.avg_resolution_hours stats) +:+ "h") "Avg Resolution"
    None "positive".

Definition same_day_card (stats : Stats.t) : string :=
  render_metric_card
    (format_f0 (Stats.same_day_pct stats) +:+ "%") "Same-Day Resolution"
    None "positive".

Definition today_delta (stats : Stats.t) : Z :=
  (Stats.today_tickets stats - Stats.yesterday_tickets stats)%Z.

Definition delta_type (stats : Stats.t) : string :=
  if (0 <? today_delta stats)%Z then "negative" else "positive".

Definition today_delta_text (stats : Stats.t) : string :=
  format_count (Z.abs (today_delta stats)) +:+ " vs yesterday".

Definition today_card (stats : Stats.t) : string :=
  render_metric_card
    (format_count (Stats.today_tickets stats))
    "Today's Tickets"
    (Some (today_delta_text stats))
    (delta_type stats).

(** ** pandas operations used by [main] *)

Section StableSort.
Context {A : Type} (leb : A -> A -> bool).

Fixpoint insert_sorted (x : A) (l : list A) : list A :=
  match l with
  | [] => [x]
  | y :: l' => if leb x y then x :: l else y :: insert_sorted x l'
  end.

(** Insertion sort, stable: among rows that compare equal the order of the
    input is kept. *)
Fixpoint stable_sort (l : list A) : list A :=
  match l with
  | [] => []
  | x :: l' => insert_sorted x (stable_sort l')
  end.

End StableSort.

(** [daily_df.sort_values('created_date')]: ascending by date. *)
Definition sort_values_created_date (df : list Daily.t) : list Daily.t :=
  stable_sort
    (fun a b => (Daily.created_date a <=? Daily.created_date b)%Z) df.

Definition sum_Z (l : list Z) : Z := foldr Z.add 0%Z l.

Definition mean (l : list Z) : Q :=
  Qred (sum_Z l # Pos.of_nat (length l)).

(** [series.rolling(window).mean()]: a trailing window ending at each row.
    [min_periods] defaults to the window size, so a row with fewer than
    [window] observations in its window gets NaN. *)
Definition rolling_mean (window : nat) (xs : list Z) : list (option Q) :=
  map (fun i =>
         let w := drop (S i - window) (take (S i) xs) in
         if (length w <? window)%nat then None else Some (mean w))
      (seq 0 (length xs)).

(** The column [ma7] that [main] adds to [daily_df_sorted]. *)
Definition ma7 (daily_df : list Daily.t) : list (option Q) :=
  rolling_mean 7 (map Daily.ticket_count (sort_values_created_date daily_df)).

(** [df.head(n)] *)
Definition df_head {A : Type} (n : nat) (df : list A) : list A := take n df.

(** [series.max()]: NaN ([None]) on an empty series. *)
Definition series_max (l : list Z) : option Z :=
  foldr (fun x acc => Some (match acc with None => x | Some m => Z.max x m end))
        None l.

(** [df.nlargest(n, column)] with the default [keep='first']: the [n] rows
    with the largest values in descending order, rows with equal values in
    the order of the frame, rows with NaN after all others. [geb a b] says
    that the column value of [a] is at least that of [b]. *)
Definition nlargest {A : Type} (n : nat) (geb : A -> A -> bool) (df : list A)
  : list A :=
  take n (stable_sort geb df).

Definition tickets_handled_geb (a b : Agent.t) : bool :=
  (Agent.tickets_handled b <=? Agent.tickets_handled a)%Z.

Definition nan_last_geb (x y : option Q) : bool :=
  match x, y with
  | Some p, Some q => Qle_bool q p
  | Some _, None => true
  | None, Some _ => false
  | None, None => true
  end.

Definition csat_rate_geb (a b : Agent.t) : bool :=
  nan_last_geb (Agent.csat_rate a) (Agent.csat_rate b).

(** [agent_df[agent_df['created_month'] == agent_df['created_month'].max()]]:
    comparing with the NaN of an empty frame selects nothing. *)
Definition current_month (agent_df : list Agent.t) : list Agent.t :=
  match series_max (map Agent.created_month agent_df) with
  | None => []
  | Some m => List.filter (fun r => (Agent.created_month r =? m)%Z) agent_df
  end.

Definition top_agents (agent_df : list Agent.t) : list Agent.t :=
  nlargest 10 tickets_handled_geb (current_month agent_df).

Definition csat_eligible (agent_df : list Agent.t) : list Agent.t :=
  List.filter (fun r => (10 <=? Agent.tickets_handled r)%Z)
              (current_month agent_df).

Definition top_csat (agent_df : list Agent.t) : list Agent.t :=
  nlargest 5 csat_rate_geb (csat_eligible agent_df).

Definition tag_df_top (tag_df : list Tag.t) : list Tag.t := df_head 8 tag_df.

(** *** The heatmap pivot *)

Definition day_order : list string :=
  ["Monday"; "Tuesday"; "Wednesday"; "Thursday"; "Friday"; "Saturday";
   "Sunday"].

(** A pivoted frame: row labels, column labels and the matrix of cells,
    one list per row label; [None] is NaN. *)
Record Pivot : Type := {
  pivot_index : list string;
  pivot_columns : list Z;
  pivot_values : list (list (option Z))
}.

(** The group-by of [pivot_table]: one entry per (day, hour) pair that
    occurs, holding the sum of [ticket_count] over the rows of the pair. *)
Definition group_sum (df : list Heat.t) : gmap (string * Z) Z :=
  foldl (fun m r =>
           partial_alter
             (fun o => Some (default 0%Z o + Heat.ticket_count r)%Z)
             (Heat.created_day_of_week r, Heat.created_hour r) m)
        ∅ df.

(** [pivot_table(index='created_day_of_week', columns='created_hour',
    values='ticket_count', aggfunc='sum')]: row and column labels are the
    distinct values that occur, sorted; a pair that does not occur is NaN. *)
Definition pivot_table (df : list Heat.t) : Pivot :=
  let cells := group_sum df in
  let idx :=
    stable_sort String.leb (remove_dups (map Heat.created_day_of_week df)) in
  let cols := stable_sort Z.leb (remove_dups (map Heat.created_hour df)) in
  {| pivot_index := idx;
     pivot_columns := cols;
     pivot_values := map (fun d => map (fun h => cells !! (d, h)) cols) idx |}.

Fixpoint lookup_row (label : string) (rows : list (string * list (option Z)))
  : option (list (option Z)) :=
  match rows with
  | [] => None
  | (l, r) :: rows' => if String.eqb l label then Some r else lookup_row label rows'
  end.

(** [frame.reindex(labels)]: the rows in the order of [labels]; a label the
    frame does not have gets a row of NaN. *)
Definition reindex (labels : list string) (p : Pivot) : Pivot :=
  let rows := zip (pivot_index p) (pivot_values p) in
  {| pivot_index := labels;
     pivot_columns := pivot_columns p;
     pivot_values :=
       map (fun l => default (replicate (length (pivot_columns p)) None)
                             (lookup_row l rows))
           labels |}.

Definition heatmap_pivot (heatmap_df : list Heat.t) : Pivot :=
  reindex day_order (pivot_table heatmap_df).

(** The x labels of the heatmap: [f"{h}:00"]. *)
Definition hour_label (h : Z) : string := pretty h +:+ ":00".

(** The shape of [heatmap_pivot.values]. *)
Definition pivot_shape (p : Pivot) : nat * nat :=
  (length (pivot_index p), length (pivot_columns p)).

(** Cell of the pivot at row label [d] and column label [h]. *)
Definition pivot_cell (p : Pivot) (d : string) (h : Z) : option Z :=
  match lookup_row d (zip (pivot_index p) (pivot_values p)),
        list_find (fun c => c = h) (pivot_columns p) with
  | Some row, Some (j, _) => default None (row !! j)
  | _, _ => None
  end.

(** ** The SQL of [load_current_stats] *)

Module Ticket.
(** The columns of [fct_ticket_summary] that the summary query reads;
    [created_at] is [DATE(created_at)] as a day number, a NULL flag is
    [false] (COUNTIF counts only TRUE). *)
Record t : Type := Row {
  status : string;
  resolution_minutes_business : option Q;
  resolved_same_day : bool;
  is_resolved : bool;
  csat_score : option string;
  created_at : Z;
  first_response_under_1hr : bool
}.
End Ticket.

Definition COUNT {A : Type} (rows : list A) : Z := Z.of_nat (length rows).

Definition COUNTIF {A : Type} (p : A -> bool) (rows : list A) : Z :=
  COUNT (List.filter p rows).

Definition NULLIF (n m : Z) : option Z :=
  if (n =? m)%Z then None else Some n.

(** [AVG] skips NULL and is NULL when nothing is left. *)
Definition AVG (col : list (option Q)) : option Q :=
  let xs := omap id col in
  match xs with
  | [] => None
  | _ => Some (foldr Qplus 0%Q xs / inject_Z (Z.of_nat (length xs)))%Q
  end.

(** Nearest integer, halfway cases away from zero (BigQuery [ROUND]). *)
Definition round_half_away (q : Q) : Z :=
  if Qltb q 0 then (- Qfloor (Qabs q + (1 # 2)))%Z else Qfloor (q + (1 # 2)).

(** [ROUND(q, 1)] *)
Definition ROUND1 (q : Q) : Q := Qred (round_half_away (q * 10) # 10).

(** [ROUND(100.0 * num / den, 1)] where [den] may be NULL. *)
Definition percent1 (num : Z) (den : option Z) : option Q :=
  match den with
  | None => None
  | Some d => Some (ROUND1 (100 * inject_Z num / inject_Z d))
  end.

Definition is_good (r : Ticket.t) : bool :=
  match Ticket.csat_score r with
  | Some s => String.eqb s "good"
  | None => false
  end.

Definition is_rated (r : Ticket.t) : bool :=
  match Ticket.csat_score r with
  | Some s => String.eqb s "good" || String.eqb s "bad"
  | None => false
  end.

Definition in_backlog (r : Ticket.t) : bool :=
  String.eqb (Ticket.status r) "open" || String.eqb (Ticket.status r) "pending"
  || String.eqb (Ticket.status r) "new".

(** The [csat_rate] column of the summary query. *)
Definition sql_csat_rate (fct_ticket_summary : list Ticket.t) : option Q :=
  percent1 (COUNTIF is_good fct_ticket_summary)
           (NULLIF (COUNTIF is_rated fct_ticket_summary) 0).

(** The whole SELECT of [load_current_stats], evaluated on a snapshot of the
    table on the day [current_date]. *)
Definition sql_current_stats (current_date : Z)
    (fct_ticket_summary : list Ticket.t) : Stats.t :=
  let T := fct_ticket_summary in
  {| Stats.total_tickets := COUNT T;
     Stats.backlog := COUNTIF in_backlog T;
     Stats.avg_resolution_hours :=
       option_map (fun a => ROUND1 (a / 60))
                  (AVG (map Ticket.resolution_minutes_business T));
     Stats.same_day_pct :=
       percent1 (COUNTIF Ticket.resolved_same_day T)
                (NULLIF (COUNTIF Ticket.is_resolved T) 0);
     Stats.csat_rate := sql_csat_rate T;
     Stats.today_tickets :=
       COUNTIF (fun r => (Ticket.created_at r =? current_date)%Z) T;
     Stats.yesterday_tickets :=
       COUNTIF (fun r => (Ticket.created_at r =? current_date - 1)%Z) T;
     Stats.fast_response_pct :=
       percent1 (COUNTIF Ticket.first_response_under_1hr T)
                (NULLIF (COUNT T) 0) |}.

(** ** Cached functions *)

(** The five query functions of the script. *)
Inductive QueryKey : Type :=
| DailyMetrics
| AgentPerformance
| CurrentStats
| TagAnalysis
| HourlyHeatmap.

(** Every function of the script that carries a caching decorator. *)
Inductive CachedFunction : Type :=
| GetBqClient
| Loader (k : QueryKey).

Inductive Decorator : Type :=
| cache_resource
| cache_data (ttl : Z).

(** The decorator written above each function in the source. *)
Definition decorator (f : CachedFunction) : Decorator :=
  match f with
  | GetBqClient => cache_resource
  | Loader DailyMetrics => cache_data 300
  | Loader AgentPerformance => cache_data 300
  | Loader CurrentStats => cache_data 300
  | Loader TagAnalysis => cache_data 300
  | Loader HourlyHeatmap => cache_data 300
  end.

(** Seconds after which an entry expires; [None]: never. *)
Definition ttl_seconds (f : CachedFunction) : option Z :=
  match decorator f with
  | cache_resource => None
  | cache_data ttl => Some ttl
  end.

Definition cached_functions : list CachedFunction :=
  [GetBqClient; Loader DailyMetrics; Loader AgentPerformance;
   Loader CurrentStats; Loader TagAnalysis; Loader HourlyHeatmap].

Definition is_query (f : CachedFunction) : bool :=
  match f with
  | GetBqClient => false
  | Loader _ => true
  end.

Definition QueryKey_eq_dec (a b : QueryKey) : {a = b} + {a <> b}.
Proof. decide equality. Defined.

(** What the warehouse returns for each query: a data frame. *)
Definition FrameT (k : QueryKey) : Type :=
  match k with
  | DailyMetrics => list Daily.t
  | AgentPerformance => list Agent.t
  | CurrentStats => list Stats.t
  | TagAnalysis => list Tag.t
  | HourlyHeatmap => list Heat.t
  end.

(** What each loader returns: the frame, or its first row for the summary. *)
Definition ResultT (k : QueryKey) : Type :=
  match k with
  | DailyMetrics => list Daily.t
  | AgentPerformance => list Agent.t
  | CurrentStats => Stats.t
  | TagAnalysis => list Tag.t
  | HourlyHeatmap => list Heat.t
  end.

Record Client : Type := {
  project : string;
  credentials : option string
}.

(** The outside world of a render pass. *)
Record Env : Type := {
  (** [st.secrets["gcp_service_account"]], when configured *)
  gcp_service_account : option string;
  (** [bigquery.Client(project=..., credentials=...)] *)
  bigquery_Client : string -> option string -> result Client;
  (** [client.query(sql).to_dataframe()] of the query of a loader, run at
      a given time *)
  run_query : Client -> forall k : QueryKey, Z -> result (FrameT k);
  (** [datetime.now().strftime('%Y-%m-%d %H:%M:%S')] *)
  strftime_now : Z -> string
}.

(** Process-wide state: the cached client, the entries of [st.cache_data]
    (the time stored and the value) and, as a record of what happened, the
    executions of loader bodies with their times, latest first. *)
Record Session : Type := {
  bq_client : option Client;
  data_cache : forall k : QueryKey, option (Z * ResultT k);
  producer_calls : list (QueryKey * Z)
}.

Definition empty_session : Session :=
  {| bq_client := None; data_cache := fun _ => None; producer_calls := [] |}.

(** A computation that reads and updates the session and may raise. *)
Definition M (A : Type) : Type := Session -> Session * result A.

Definition ret {A : Type} (a : A) : M A := fun s => (s, Return a).

Definition raise {A : Type} (e : Exception) : M A := fun s => (s, Raise e).

Definition bind {A B : Type} (m : M A) (f : A -> M B) : M B :=
  fun s =>
    match m s with
    | (s', Raise e) => (s', Raise e)
    | (s', Return a) => f a s'
    end.

Notation "x <- m ;; k" := (bind m (fun x => k))
  (at level 100, m at next level, right associativity).

Definition lift {A : Type} (r : result A) : M A := fun s => (s, r).

(** [@st.cache_resource def get_bq_client()]: built once, kept for ever. *)
Definition get_bq_client (env : Env) : M Client :=
  fun s =>
    match bq_client s with
    | Some c => (s, Return c)
    | None =>
        match bigquery_Client env "artful-logic-475116-p1"
                              (gcp_service_account env) with
        | Raise e => (s, Raise e)
        | Return c =>
            ({| bq_client := Some c;
                data_cache := data_cache s;
                producer_calls := producer_calls s |}, Return c)
        end
    end.

Definition record_call (k : QueryKey) (now : Z) : M unit :=
  fun s =>
    ({| bq_client := bq_client s;
        data_cache := data_cache s;
        producer_calls := (k, now) :: producer_calls s |}, Return tt).

(** What a loader does with the frame: [load_current_stats] takes
    [.iloc[0]], which raises on an empty frame; the others return it. *)
Definition finish (k : QueryKey) : FrameT k -> result (ResultT k) :=
  match k with
  | CurrentStats => fun frame =>
      match frame with
      | [] => Raise "single positional indexer is out-of-bounds"
      | row :: _ => Return row
      end
  | _ => fun frame => Return frame
  end.

(** The body of a loader: fetch the client, run the query, return the
    result. *)
Definition producer (env : Env) (k : QueryKey) (now : Z) : M (ResultT k) :=
  _ <- record_call k now ;;
  client <- get_bq_client env ;;
  frame <- lift (run_query env client k now) ;;
  lift (finish k frame).

Definition store (s : Session) (k : QueryKey) (now : Z) (v : ResultT k)
  : Session :=
  {| bq_client := bq_client s;
     data_cache := fun k' =>
       match QueryKey_eq_dec k k' with
       | left e => Some (now, eq_rect k ResultT v k' e)
       | right _ => data_cache s k'
       end;
     producer_calls := producer_calls s |}.

(** Modelled from the spec: the wrapper that [@st.cache_data(ttl=...)] puts
    around a function is Streamlit's and not part of the repository; this is
    the contract [cached(key, ttl_seconds, producer)] of section 4.3.  A
    live entry (age < ttl) is returned without running the producer;
    otherwise the producer runs and its result is stored with the current
    time.  A producer that raises stores nothing. *)
Definition cached (k : QueryKey) (ttl : Z) (now : Z)
    (body : M (ResultT k)) : M (ResultT k) :=
  fun s =>
    let miss :=
      match body s with
      | (s', Raise e) => (s', Raise e)
      | (s', Return v) => (store s' k now v, Return v)
      end in
    match data_cache s k with
    | Some (t0, v) => if (now - t0 <? ttl)%Z then (s, Return v) else miss
    | None => miss
    end.

(** A decorated loader, called at time [now]. *)
Definition load (env : Env) (k : QueryKey) (now : Z) : M (ResultT k) :=
  match decorator (Loader k) with
  | cache_data ttl => cached k ttl now (producer env k now)
  | cache_resource => producer env k now
  end.

Definition load_daily_metrics (env : Env) (now : Z) : M (list Daily.t) :=
  load env DailyMetrics now.
Definition load_agent_performance (env : Env) (now : Z) : M (list Agent.t) :=
  load env AgentPerformance now.
Definition load_current_stats (env : Env) (now : Z) : M Stats.t :=
  load env CurrentStats now.
Definition load_tag_analysis (env : Env) (now : Z) : M (list Tag.t) :=
  load env TagAnalysis now.
Definition load_hourly_heatmap (env : Env) (now : Z) : M (list Heat.t) :=
  load env HourlyHeatmap now.

(** ** Widgets *)

Inductive Orientation : Type := Vertical | Horizontal.

(** The plotly traces [main] builds, with their data. *)
Inductive Trace : Type :=
| Scatter (name : string) (x : list Z) (y : list (option Q))
| Heatmap (z : list (list (option Z))) (x : list string) (y : list string)
| Bar (orientation : Orientation) (labels : list string)
      (values : list (option Q)).

Record Figure : Type := {
  traces : list Trace;
  hline : option Q
}.

(** What a render pass emits, in order.  [uncaught_exception] marks the
    point where the script stopped with an exception that nothing caught
    (Streamlit shows it in the page); nothing is emitted after it. *)
Inductive Widget : Type :=
| st_markdown (html : string)
| st_error (message : string)
| st_columns (spec : list nat)
| st_plotly_chart (fig : Figure)
| uncaught_exception (message : string).

Definition attr (name value : string) : string :=
  " " +:+ name +:+ "=" +:+ dq +:+ value +:+ dq.

Definition header_html : string :=
  nl +:+ "    <div" +:+ attr "style" "display: flex; justify-content: space-between; align-items: center; margin-bottom: 32px;" +:+ ">" +:+ nl
  +:+ "        <div>" +:+ nl
  +:+ "            <h1" +:+ attr "class" "dashboard-header" +:+ ">Support Command Center</h1>" +:+ nl
  +:+ "            <p" +:+ attr "class" "dashboard-subtitle" +:+ ">B2C Customer Support Analytics • Real-time Insights</p>" +:+ nl
  +:+ "        </div>" +:+ nl
  +:+ "        <div" +:+ attr "class" "live-indicator" +:+ ">" +:+ nl
  +:+ "            <span" +:+ attr "class" "live-dot" +:+ "></span>" +:+ nl
  +:+ "            Live Data" +:+ nl
  +:+ "        </div>" +:+ nl
  +:+ "    </div>" +:+ nl
  +:+ "    ".

Definition section_header (title : string) : string :=
  "<p" +:+ attr "class" "section-header" +:+ ">" +:+ title +:+ "</p>".

Definition footer_html (now_text : string) : string :=
  nl +:+ "    <div" +:+ attr "style" "text-align: center; color: #8892b0; margin-top: 48px; padding: 24px; border-top: 1px solid rgba(255,255,255,0.1);" +:+ ">" +:+ nl
  +:+ "        <p" +:+ attr "style" "margin: 0;" +:+ ">Last updated: " +:+ now_text +:+ " UTC</p>" +:+ nl
  +:+ "        <p" +:+ attr "style" "margin: 4px 0 0 0; font-size: 12px;" +:+ ">Data refreshes every 5 minutes • Built with 💜 by BigQuery Agent</p>" +:+ nl
  +:+ "    </div>" +:+ nl
  +:+ "    ".

Definition Zs (l : list Z) : list (option Q) :=
  map (fun n => Some (inject_Z n)) l.

Definition times100 (l : list (option Q)) : list (option Q) :=
  map (option_map (fun q => (q * 100)%Q)) l.

(** ** The sections of [main] after the data is loaded *)

(** The KPI row.  The columns are created first; evaluating the CSAT card
    may raise, and then no card is emitted. *)
Definition kpi_row (stats : Stats.t) : list Widget :=
  st_columns [1; 1; 1; 1; 1]%nat
  :: match csat_card stats with
     | Raise e => [ uncaught_exception e ]
     | Return card =>
         [ st_markdown card;
           st_markdown (backlog_card stats);
           st_markdown (resolution_card stats);
           st_markdown (same_day_card stats);
           st_markdown (today_card stats);
           st_markdown "<br>" ]
     end.

(** The script stopped with an uncaught exception. *)
Definition died (ws : list Widget) : bool :=
  existsb (fun w => match w with uncaught_exception _ => true | _ => false end)
          ws.

Definition fig_volume_trend (daily_df : list Daily.t) : Figure :=
  let daily_df_sorted := sort_values_created_date daily_df in
  {| traces :=
       [ Scatter "Tickets"
           (map Daily.created_date daily_df_sorted)
           (Zs (map Daily.ticket_count daily_df_sorted));
         Scatter "7-day avg"
           (map Daily.created_date daily_df_sorted)
           (ma7 daily_df) ];
     hline := None |}.

Definition fig_csat_trend (daily_df : list Daily.t) : Figure :=
  let daily_df_sorted := sort_values_created_date daily_df in
  {| traces :=
       [ Scatter "CSAT %"
           (map Daily.created_date daily_df_sorted)
           (times100 (map Daily.csat_rate daily_df_sorted)) ];
     hline := Some 70%Q |}.

Definition fig_heatmap (heatmap_df : list Heat.t) : Figure :=
  let p := heatmap_pivot heatmap_df in
  {| traces :=
       [ Heatmap (pivot_values p) (map hour_label (pivot_columns p))
                 (pivot_index p) ];
     hline := None |}.

Definition fig_categories (tag_df : list Tag.t) : Figure :=
  let top := tag_df_top tag_df in
  {| traces :=
       [ Bar Horizontal (map Tag.tag top) (Zs (map Tag.total_tickets top)) ];
     hline := None |}.

Definition fig_top_agents (agent_df : list Agent.t) : Figure :=
  let top := top_agents agent_df in
  {| traces :=
       [ Bar Vertical (map Agent.agent_name top)
             (Zs (map Agent.tickets_handled top)) ];
     hline := None |}.

Definition fig_top_csat (agent_df : list Agent.t) : Figure :=
  let top := top_csat agent_df in
  {| traces :=
       [ Bar Horizontal (map Agent.agent_name top)
             (times100 (map Agent.csat_rate top)) ];
     hline := None |}.

Definition charts_row_1 (daily_df : list Daily.t) : list Widget :=
  [ st_columns [2; 1]%nat;
    st_markdown (section_header "📈 Ticket Volume Trend");
    st_plotly_chart (fig_volume_trend daily_df);
    st_markdown (section_header "🎯 CSAT Trend");
    st_plotly_chart (fig_csat_trend daily_df) ].

Definition charts_row_2 (heatmap_df : list Heat.t) (tag_df : list Tag.t)
  : list Widget :=
  [ st_columns [1; 1]%nat;
    st_markdown (section_header "🔥 Volume Heatmap");
    st_plotly_chart (fig_heatmap heatmap_df);
    st_markdown (section_header "🏷️ Top Issue Categories");
    st_plotly_chart (fig_categories tag_df) ].

Definition is_empty {A : Type} (df : list A) : bool :=
  match df with [] => true | _ => false end.

Definition agent_section (agent_df : list Agent.t) : list Widget :=
  st_markdown (section_header "👥 Agent Performance")
  :: (if negb (is_empty (current_month agent_df))
      then
        [ st_columns [2; 1]%nat;
          st_plotly_chart (fig_top_agents agent_df) ]
        ++ (if negb (is_empty (top_csat agent_df))
            then [ st_plotly_chart (fig_top_csat agent_df) ]
            else [])
      else []).

(** The five tables of a render pass. *)
Record Loaded : Type := {
  stats : Stats.t;
  daily_df : list Daily.t;
  agent_df : list Agent.t;
  tag_df : list Tag.t;
  heatmap_df : list Heat.t
}.

(** The body of the [try] block of [main]. *)
Definition load_all (env : Env) (now : Z) : M Loaded :=
  stats <- load_current_stats env now ;;
  daily_df <- load_daily_metrics env now ;;
  agent_df <- load_agent_performance env now ;;
  tag_df <- load_tag_analysis env now ;;
  heatmap_df <- load_hourly_heatmap env now ;;
  ret {| stats := stats; daily_df := daily_df; agent_df := agent_df;
         tag_df := tag_df; heatmap_df := heatmap_df |}.

(** Everything [main] emits after a successful load, footer excluded.  The
    code after the [try] block is not guarded: when the KPI row stops with
    an exception, nothing follows. *)
Definition dashboard (d : Loaded) : list Widget :=
  kpi_row (stats d)
  ++ (if died (kpi_row (stats d)) then []
      else charts_row_1 (daily_df d)
           ++ charts_row_2 (heatmap_df d) (tag_df d)
           ++ agent_section (agent_df d)).

(** [main], run at time [now]: the new session state and the widgets
    emitted. *)
Definition main (env : Env) (now : Z) (s : Session) : Session * list Widget :=
  match load_all env now s with
  | (s', Raise e) =>
      (s', [ st_markdown header_html;
             st_error ("Error loading data: " +:+ e) ])
  | (s', Return d) =>
      (s', st_markdown header_html
           :: dashboard d
           ++ (if died (dashboard d) then []
               else [ st_markdown (footer_html (strftime_now env now)) ]))
  end.

(** ** Observations on the output *)

Definition figures (ws : list Widget) : list Figure :=
  omap (fun w => match w with st_plotly_chart f => Some f | _ => None end) ws.

Definition errors (ws : list Widget) : list string :=
  omap (fun w => match w with st_error m => Some m | _ => None end) ws.

Definition markdowns (ws : list Widget) : list string :=
  omap (fun w => match w with st_markdown h => Some h | _ => None end) ws.

(** The metric cards among the widgets: the markdown blocks that
    [render_metric_card] produced. *)
Definition is_metric_card (html : string) : Prop :=
  exists value label delta delta_type,
    html = render_metric_card value label delta delta_type.

(** Number of bars a figure draws. *)
Definition bar_count (f : Figure) : nat :=
  sum_list (map (fun t => match t with
                          | Bar _ labels _ => length labels
                          | _ => 0%nat
                          end) (traces f)).

(** A summary row whose ticket counts are the given ones. *)
Definition sample_stats (today yesterday : Z) : Stats.t :=
  {| Stats.total_tickets := 5000;
     Stats.backlog := 140;
     Stats.avg_resolution_hours := Some (123 # 10);
     Stats.same_day_pct := Some (415 # 10);
     Stats.csat_rate := Some (655 # 10);
     Stats.today_tickets := today;
     Stats.yesterday_tickets := yesterday;
     Stats.fast_response_pct := Some (50 # 1) |}.

Definition is_bad (r : Ticket.t) : bool :=
  match Ticket.csat_score r with
  | Some s => String.eqb s "bad"
  | None => false
  end.

(** A ticket with a given CSAT score, and a table with given numbers of
    good, bad and unrated tickets. *)
Definition ticket_scored (score : option string) : Ticket.t :=
  {| Ticket.status := "solved";
     Ticket.resolution_minutes_business := Some 90%Q;
     Ticket.resolved_same_day := true;
     Ticket.is_resolved := true;
     Ticket.csat_score := score;
     Ticket.created_at := 0;
     Ticket.first_response_under_1hr := true |}.

Definition rated_sample (good bad unrated : nat) : list Ticket.t :=
  replicate good (ticket_scored (Some "good"))
  ++ replicate bad (ticket_scored (Some "bad"))
  ++ replicate unrated (ticket_scored None).

(** Seven days as the warehouse returns them, latest first. *)
Definition sample_daily : list Daily.t :=
  [ Daily.Row 7 14 (Some (7 # 10)); Daily.Row 6 12 None;
    Daily.Row 5 10 (Some (6 # 10)); Daily.Row 4 8 (Some (8 # 10));
    Daily.Row 3 6 (Some (5 # 10)); Daily.Row 2 4 (Some (9 # 10));
    Daily.Row 1 2 (Some (7 # 10)) ].

(** The two heatmap rows of the specification's example. *)
Definition sample_heatmap : list Heat.t :=
  [ Heat.Row "Monday" 9 5; Heat.Row "Monday" 9 3 ].

(** Sum of [ticket_count] over the rows of a (day, hour) pair; [None] when
    the pair has no row. *)
Definition cell_sum (df : list Heat.t) (d : string) (h : Z) : option Z :=
  match List.filter
          (fun r => String.eqb (Heat.created_day_of_week r) d
                    && (Heat.created_hour r =? h)%Z) df with
  | [] => None
  | rows => Some (sum_Z (map Heat.ticket_count rows))
  end.

(** Rows that tie with [x] under the order [geb]. *)
Definition ties {A : Type} (geb : A -> A -> bool) (x : A) (l : list A)
  : list A :=
  List.filter (fun y => geb x y && geb y x) l.

(** [top] is the top-[n] selection from [pool]: it has [n] rows (all of the
    pool when that has fewer), in descending order; every row left out is
    no larger than any row selected; and among rows that tie, the selected
    ones are the first of the pool, in the order of the pool. *)
Definition is_top_n {A : Type} (n : nat) (geb : A -> A -> bool)
    (pool top : list A) : Prop :=
  length top = Nat.min n (length pool)
  /\ StronglySorted (fun a b => geb a b = true) top
  /\ (exists rest, Permutation pool (top ++ rest)
        /\ forall a b, In a top -> In b rest -> geb a b = true)
  /\ (forall x, ties geb x top `prefix_of` ties geb x pool).

(** The calls of [main]'s [try] block, in order. *)
Definition load_order : list QueryKey :=
  [CurrentStats; DailyMetrics; AgentPerformance; TagAnalysis; HourlyHeatmap].

(** Calling the loaders [ks] one after the other, results dropped. *)
Fixpoint run_loaders (env : Env) (now : Z) (ks : list QueryKey) : M unit :=
  match ks with
  | [] => ret tt
  | k :: ks' => _ <- load env k now ;; run_loaders env now ks'
  end.

(** How often the body of loader [k] has run. *)
Definition invocations (k : QueryKey) (s : Session) : nat :=
  length (List.filter
            (fun c => if QueryKey_eq_dec (fst c) k then true else false)
            (producer_calls s)).

(** A warehouse that answers every query with an empty table (and one
    summary row), except that the queries in [broken] fail. *)
Definition sample_env (broken : list QueryKey) : Env :=
  {| gcp_service_account := None;
     bigquery_Client := fun p c =>
       Return {| project := p; credentials := c |};
     run_query := fun _ k _ =>
       if existsb (fun b => if QueryKey_eq_dec b k then true else false) broken
       then Raise "403 Access Denied"
       else Return
              (match k return FrameT k with
               | DailyMetrics => []
               | AgentPerformance => []
               | CurrentStats => [sample_stats 120 100]
               | TagAnalysis => []
               | HourlyHeatmap => []
               end);
     strftime_now := fun _ => "2024-01-01 00:00:00" |}.

(** ** apply_dark_theme *)








(** ** Well-formed figures and matrix totals *)

Definition trace_ok (t : Trace) : bool :=
  match t with
  | Scatter _ x y => (length x =? length y)%nat
  | Heatmap z x y =>
      (length z =? length y)%nat
      && forallb (fun row => (length row =? length x)%nat) z
  | Bar _ labels values => (length labels =? length values)%nat
  end.

(** Every trace has as many values as positions. *)
Definition figure_ok (f : Figure) : bool := forallb trace_ok (traces f).

(** Sum of the cells of a matrix, an absent cell counting 0. *)
Definition matrix_total (z : list (list (option Z))) : Z :=
  sum_Z (map (fun row => sum_Z (map (default 0%Z) row)) z).

(** Tickets of the rows whose day is one of the seven day names. *)
Definition known_day_total (df : list Heat.t) : Z :=
  sum_Z (map Heat.ticket_count
             (List.filter
                (fun r => bool_decide (Heat.created_day_of_week r ∈ day_order))
                df)).

(** ** Sample data *)

Definition sample_agents : list Agent.t :=
  [ Agent.Row "Zed" 5 20 (Some (1 # 2)); Agent.Row "Amy" 5 20 None;
    Agent.Row "Bob" 5 30 (Some (3 # 4)); Agent.Row "Old" 4 99 (Some (9 # 10));
    Agent.Row "Lou" 5 3 (Some (1 # 1)) ].

Definition sample_tickets : list Ticket.t :=
  [ {| Ticket.status := "open";
       Ticket.resolution_minutes_business := None;
       Ticket.resolved_same_day := false;
       Ticket.is_resolved := false;
       Ticket.csat_score := None;
       Ticket.created_at := 10;
       Ticket.first_response_under_1hr := true |};
    {| Ticket.status := "solved";
       Ticket.resolution_minutes_business := Some 90%Q;
       Ticket.resolved_same_day := true;
       Ticket.is_resolved := true;
       Ticket.csat_score := Some "good";
       Ticket.created_at := 9;
       Ticket.first_response_under_1hr := false |};
    {| Ticket.status := "solved";
       Ticket.resolution_minutes_business := Some 2000%Q;
       Ticket.resolved_same_day := false;
       Ticket.is_resolved := true;
       Ticket.csat_score := Some "bad";
       Ticket.created_at := 3;
       Ticket.first_response_under_1hr := true |} ].

(** A summary row with a given CSAT rate. *)
Definition stats_with_csat (r : option Q) : Stats.t :=
  {| Stats.total_tickets := 5000;
     Stats.backlog := 140;
     Stats.avg_resolution_hours := Some (123 # 10);
     Stats.same_day_pct := Some (415 # 10);
     Stats.csat_rate := r;
     Stats.today_tickets := 120;
     Stats.yesterday_tickets := 100;
     Stats.fast_response_pct := Some (50 # 1) |}.

(** No entry of the result cache is live at time [now]. *)
Definition no_live_entry (s : Session) (now : Z) : Prop :=
  forall k t0 v0, data_cache s k = Some (t0, v0) -> (300 <= now - t0)%Z.


(** ** Where cached values come from *)

(** [v] is what loader [k] makes of the warehouse's answer to its query
    run at time [t]. *)
Definition produced_at (env : Env) (k : QueryKey) (t : Z) (v : ResultT k)
  : Prop :=
  exists c frame,
    run_query env c k t = Return frame /\ finish k frame = Return v.

(** Every cache entry holds a real answer of the warehouse, stored under
    the time of its query. *)
Definition cache_sound (env : Env) (s : Session) : Prop :=
  forall k t0 v, data_cache s k = Some (t0, v) -> produced_at env k t0 v.

(** [v] is an answer to the query of [k] less than 300 seconds old at
    [now]. *)
Definition recent (env : Env) (k : QueryKey) (now : Z) (v : ResultT k)
  : Prop :=
  exists t, (now - t < 300)%Z /\ produced_at env k t v.


(** A warehouse whose summary query returns no row. *)
Definition empty_summary_env : Env :=
  {| gcp_service_account := Some "service-account.json";
     bigquery_Client := fun p c =>
       Return {| project := p; credentials := c |};
     run_query := fun _ k _ =>
       Return
         (match k return FrameT k with
          | DailyMetrics => []
          | AgentPerformance => []
          | CurrentStats => []
          | TagAnalysis => []
          | HourlyHeatmap => []
          end);
     strftime_now := fun _ => "2024-01-01 00:00:00" |}.

(** Eleven agents of one month who tie on [tickets_handled]. *)
Definition tied_agents : list Agent.t :=
  map (fun name => Agent.Row name 5 20 (Some (3 # 4)))
      ["A"; "B"; "C"; "D"; "E"; "F"; "G"; "H"; "I"; "J"; "K"].

(** The five tables of a warehouse without tickets: the summary row has
    zero counts and NULL rates, the other tables are empty. *)
Definition loaded_without_tickets : Loaded :=
  {| stats := sql_current_stats 0 [];
     daily_df := []; agent_df := []; tag_df := []; heatmap_df := [] |}.

(** A warehouse without tickets. *)
Definition env_without_tickets : Env :=
  {| gcp_service_account := None;
     bigquery_Client := fun p c =>
       Return {| project := p; credentials := c |};
     run_query := fun _ k t =>
       Return
         (match k return FrameT k with
          | DailyMetrics => []
          | AgentPerformance => []
          | CurrentStats => [sql_current_stats t []]
          | TagAnalysis => []
          | HourlyHeatmap => []
          end);
     strftime_now := fun _ => "2024-01-01 00:00:00" |}.

(** Five loaded tables around a given summary row, the rest empty. *)
Definition loaded_with_stats (st : Stats.t) : Loaded :=
  {| stats := st; daily_df := []; agent_df := sample_agents; tag_df := [];
     heatmap_df := [] |}.

(** * Properties *)

(** ** KPI cards *)

Lemma Qltb_lt (x y : Q) : Qltb x y = true <-> (x < y)%Q.
Proof.
  unfold Qltb. rewrite negb_true_iff, <- not_true_iff_false, Qle_bool_iff.
  split; [apply Qnot_le_lt | apply Qlt_not_le].
Qed.

Lemma Qltb_ge (x y : Q) : Qltb x y = false <-> (y <= x)%Q.
Proof.
  unfold Qltb. rewrite negb_false_iff. apply Qle_bool_iff.
Qed.

Lemma append_nonempty (a b : string) : b <> EmptyString -> a +:+ b <> EmptyString.
Proof. destruct a; simpl; [tauto | discriminate]. Qed.

Lemma delta_html_truthy (d ty : string) :
  d <> EmptyString ->
  delta_html (Some d) ty =
    if String.eqb ty "positive"
    then delta_block "metric-delta-positive" "↑" d
    else delta_block "metric-delta-negative" "↓" d.
Proof.
  destruct d as [|c d]; [congruence | intros _].
  unfold delta_html. destruct (String.eqb ty "positive"); reflexivity.
Qed.

Lemma today_card_unfold (s : Stats.t) :
  today_card s =
    card_template (pretty (Stats.today_tickets s)) "Today's Tickets"
      (if (0 <? today_delta s)%Z
       then delta_block "metric-delta-negative" "↓" (today_delta_text s)
       else delta_block "metric-delta-positive" "↑" (today_delta_text s)).
Proof.
  unfold today_card, render_metric_card, format_count.
  rewrite delta_html_truthy
    by (apply append_nonempty; discriminate).
  unfold delta_type. destruct (0 <? today_delta s)%Z; reflexivity.
Qed.


(** C10. When today's and yesterday's counts are equal the delta is zero:
    the card is framed "positive" and still shows the delta line, an up
    arrow followed by "0 vs yesterday" (the text is not empty, so it counts
    as true in [if delta:]). *)
Theorem zero_delta_framed_positive (s : Stats.t)
    (Hsame : Stats.today_tickets s = Stats.yesterday_tickets s) :
  today_delta s = 0%Z
  /\ delta_type s = "positive"
  /\ today_delta_text s = "0 vs yesterday"
  /\ delta_html (Some (today_delta_text s)) (delta_type s) =
       "<div class=" +:+ dq +:+ "metric-delta-positive" +:+ dq
       +:+ ">↑ 0 vs yesterday</div>"
  /\ today_card s =
       nl +:+ "    <div class=" +:+ dq +:+ "metric-card" +:+ dq +:+ ">" +:+ nl
       +:+ "        <div class=" +:+ dq +:+ "metric-value" +:+ dq +:+ ">"
       +:+ pretty (Stats.today_tickets s) +:+ "</div>" +:+ nl
       +:+ "        <div class=" +:+ dq +:+ "metric-label" +:+ dq
       +:+ ">Today's Tickets</div>" +:+ nl
       +:+ "        <div class=" +:+ dq +:+ "metric-delta-positive" +:+ dq
       +:+ ">↑ 0 vs yesterday</div>" +:+ nl
       +:+ "    </div>" +:+ nl
       +:+ "    ".
Proof.
  assert (Hd : today_delta s = 0%Z) by (unfold today_delta; lia).
  split; [exact Hd |].
  assert (Ht : delta_type s = "positive")
    by (unfold delta_type; rewrite Hd; reflexivity).
  split; [exact Ht |].
  assert (Htxt : today_delta_text s = "0 vs yesterday")
    by (unfold today_delta_text; rewrite Hd; reflexivity).
  split; [exact Htxt |]. split.
  - rewrite Ht, Htxt. reflexivity.
  - rewrite today_card_unfold, Hd, Htxt. reflexivity.
Qed.

Lemma zero_delta_framed_positive_witness :
  Stats.today_tickets (sample_stats 100 100)
    = Stats.yesterday_tickets (sample_stats 100 100)
  /\ delta_html (Some (today_delta_text (sample_stats 100 100)))
                (delta_type (sample_stats 100 100)) =
       "<div class=" +:+ dq +:+ "metric-delta-positive" +:+ dq
       +:+ ">↑ 0 vs yesterday</div>".
Proof.
  split; [reflexivity |].
  apply (zero_delta_framed_positive (sample_stats 100 100)). reflexivity.
Defined.

(** C9. The CSAT card shows a delta line exactly when [csat_rate] is a
    number strictly above 65; the line is then the fixed text
    "2.3% vs last week" after an up arrow, framed "positive", whatever the
    data; for a rate of 65 or below the card has no delta line.  (A NULL
    rate is neither: the condition raises.) *)
Theorem csat_card_constant_delta (s : Stats.t) :
  let card (delta_line : string) :=
    nl +:+ "    <div class=" +:+ dq +:+ "metric-card" +:+ dq +:+ ">" +:+ nl
    +:+ "        <div class=" +:+ dq +:+ "metric-value" +:+ dq +:+ ">"
    +:+ (format_f0 (Stats.csat_rate s) +:+ "%") +:+ "</div>" +:+ nl
    +:+ "        <div class=" +:+ dq +:+ "metric-label" +:+ dq
    +:+ ">CSAT Score</div>" +:+ nl
    +:+ "        " +:+ delta_line +:+ nl
    +:+ "    </div>" +:+ nl
    +:+ "    " in
  (csat_above_65 s = Return true
     <-> exists r, Stats.csat_rate s = Some r /\ (65 < r)%Q)
  /\ (csat_above_65 s = Return false
     <-> exists r, Stats.csat_rate s = Some r /\ (r <= 65)%Q)
  /\ ((exists e, csat_above_65 s = Raise e) <-> Stats.csat_rate s = None)
  /\ csat_card s =
       match csat_above_65 s with
       | Return true =>
           Return (card ("<div class=" +:+ dq +:+ "metric-delta-positive"
                         +:+ dq +:+ ">↑ 2.3% vs last week</div>"))
       | Return false => Return (card EmptyString)
       | Raise e => Raise e
       end.
Proof.
  cbv zeta.
  unfold csat_card, render_metric_card, csat_delta, csat_delta_type,
    csat_above_65.
  destruct (Stats.csat_rate s) as [r|].
  - split; [| split; [| split]].
    + split.
      * intros [= H]. exists r. split; [reflexivity | now apply Qltb_lt].
      * intros (r' & [= <-] & H). f_equal. now apply Qltb_lt.
    + split.
      * intros [= H]. exists r. split; [reflexivity | now apply Qltb_ge].
      * intros (r' & [= <-] & H). f_equal. now apply Qltb_ge.
    + split; [intros (e & H); discriminate H | discriminate].
    + destruct (Qltb 65 r); reflexivity.
  - split; [| split; [| split]].
    + split; [discriminate | intros (r' & H & _); discriminate H].
    + split; [discriminate | intros (r' & H & _); discriminate H].
    + split; [reflexivity | intros _; eexists; reflexivity].
    + reflexivity.
Qed.

(** ** Stable sorting and top-n selection *)

Section StableSortFacts.
Context {A : Type} (leb : A -> A -> bool).
Hypothesis leb_total : forall a b, leb a b = true \/ leb b a = true.
Hypothesis leb_trans :
  forall a b c, leb a b = true -> leb b c = true -> leb a c = true.

Let R (a b : A) : Prop := leb a b = true.

Lemma insert_sorted_perm (x : A) (l : list A) :
  Permutation (insert_sorted leb x l) (x :: l).
Proof.
  induction l as [|y l IH]; simpl; [reflexivity |].
  destruct (leb x y); [reflexivity |].
  rewrite IH. apply perm_swap.
Qed.

Lemma stable_sort_perm (l : list A) : Permutation (stable_sort leb l) l.
Proof.
  induction l as [|x l IH]; simpl; [reflexivity |].
  rewrite insert_sorted_perm. now apply perm_skip.
Qed.

Lemma insert_sorted_sorted (x : A) (l : list A) :
  StronglySorted R l -> StronglySorted R (insert_sorted leb x l).
Proof.
  induction 1 as [|y l Hs IH Hy]; simpl.
  - repeat constructor.
  - destruct (leb x y) eqn:Hxy.
    + constructor; [now constructor |].
      constructor; [exact Hxy |].
      eapply Forall_impl; [exact Hy |]. intros z Hz. now apply (leb_trans x y z).
    + constructor; [exact IH |].
      apply Forall_forall. intros z Hz.
      apply list_elem_of_In in Hz.
      apply (Permutation_in _ (insert_sorted_perm x l)) in Hz.
      destruct Hz as [<- | Hz].
      * destruct (leb_total x y) as [H | H]; [congruence | exact H].
      * rewrite Forall_forall in Hy. apply Hy. now apply list_elem_of_In.
Qed.

Lemma stable_sort_sorted (l : list A) : StronglySorted R (stable_sort leb l).
Proof.
  induction l as [|x l IH]; simpl; [constructor |].
  now apply insert_sorted_sorted.
Qed.

Lemma ties_insert_sorted (x a : A) (l : list A) :
  ties leb x (insert_sorted leb a l) =
    if leb x a && leb a x then a :: ties leb x l else ties leb x l.
Proof.
  unfold ties. induction l as [|y l IH]; simpl; [reflexivity |].
  destruct (leb a y) eqn:Hay; simpl; [reflexivity |].
  rewrite IH.
  destruct (leb x a && leb a x) eqn:Ha; [| reflexivity].
  destruct (leb x y && leb y x) eqn:Hy; [| reflexivity].
  apply andb_true_iff in Ha as [_ Hax]. apply andb_true_iff in Hy as [Hxy _].
  rewrite (leb_trans a x y Hax Hxy) in Hay. discriminate.
Qed.

(** Stability: sorting does not reorder rows that tie. *)
Lemma ties_stable_sort (x : A) (l : list A) :
  ties leb x (stable_sort leb l) = ties leb x l.
Proof.
  induction l as [|a l IH]; simpl; [reflexivity |].
  rewrite ties_insert_sorted, IH. unfold ties. simpl.
  now destruct (leb x a && leb a x).
Qed.

Lemma nlargest_is_top_n (n : nat) (l : list A) :
  is_top_n n leb l (nlargest n leb l).
Proof.
  unfold nlargest.
  pose proof (stable_sort_sorted l) as Hs.
  pose proof (stable_sort_perm l) as Hp.
  rewrite <- (take_drop n (stable_sort leb l)) in Hs.
  repeat split.
  - rewrite length_take. now rewrite (Permutation_length Hp).
  - now apply StronglySorted_app_1_l in Hs.
  - exists (drop n (stable_sort leb l)). split.
    + rewrite take_drop. now symmetry.
    + intros a b Ha Hb. apply list_elem_of_In in Ha, Hb.
      exact (StronglySorted_app_1_elem_of _ _ _ _ _ Hs Ha Hb).
  - intros x. rewrite <- (ties_stable_sort x l).
    rewrite <- (take_drop n (stable_sort leb l)) at 2.
    unfold ties. rewrite List.filter_app. now apply prefix_app_r.
Qed.

End StableSortFacts.

Lemma nan_last_geb_total (x y : option Q) :
  nan_last_geb x y = true \/ nan_last_geb y x = true.
Proof.
  destruct x as [p|], y as [q|]; simpl; auto.
  rewrite !Qle_bool_iff. destruct (Qlt_le_dec p q) as [H | H]; [right | left].
  - now apply Qlt_le_weak.
  - exact H.
Qed.

Lemma nan_last_geb_trans (x y z : option Q) :
  nan_last_geb x y = true -> nan_last_geb y z = true ->
  nan_last_geb x z = true.
Proof.
  destruct x as [p|], y as [q|], z as [r|]; simpl; try congruence.
  rewrite !Qle_bool_iff. intros H1 H2. now apply (Qle_trans r q p).
Qed.

Lemma StronglySorted_weaken {A : Type} (R1 R2 : A -> A -> Prop) (l : list A) :
  (forall a b, R1 a b -> R2 a b) -> StronglySorted R1 l -> StronglySorted R2 l.
Proof.
  intros HR. induction 1 as [|x l Hs IH Hx]; constructor; [exact IH |].
  eapply Forall_impl; [exact Hx |]. intros y. apply HR.
Qed.

(** ** Moving average *)

Lemma map_seq_replicate {B : Type} (f : nat -> B) (b : B) (start len : nat) :
  (forall i, (start <= i < start + len)%nat -> f i = b) ->
  map f (seq start len) = replicate len b.
Proof.
  revert start. induction len as [|len IH]; intros start Hf; simpl;
    [reflexivity |].
  rewrite Hf by lia. f_equal. apply IH. intros i Hi. apply Hf. lia.
Qed.

Lemma rolling_mean_head (xs : list Z) :
  take 6 (rolling_mean 7 xs) = replicate (Nat.min 6 (length xs)) None.
Proof.
  unfold rolling_mean. rewrite firstn_map, take_seq.
  apply map_seq_replicate. intros i Hi.
  replace (S i - 7)%nat with 0%nat by lia. rewrite !skipn_O.
  rewrite length_take.
  destruct (Nat.ltb_spec (Nat.min (S i) (length xs)) 7); [reflexivity | lia].
Qed.

Lemma rolling_mean_tail (xs : list Z) :
  drop 6 (rolling_mean 7 xs) =
    map (fun j => Some (mean (take 7 (drop j xs)))) (seq 0 (length xs - 6)).
Proof.
  unfold rolling_mean. rewrite skipn_map, drop_seq. simpl Nat.add.
  rewrite <- (fmap_add_seq 6 0).
  change (Nat.add 6 <$> seq 0 (length xs - 6))
    with (map (Nat.add 6) (seq 0 (length xs - 6))).
  rewrite List.map_map. apply List.map_ext_in. intros j Hj.
  apply in_seq in Hj.
  replace (S (6 + j) - 7)%nat with j by lia.
  rewrite skipn_firstn_comm.
  replace (S (6 + j) - j)%nat with 7%nat by lia.
  rewrite length_take, length_drop.
  destruct (Nat.ltb_spec (Nat.min 7 (length xs - j)) 7); [lia | reflexivity].
Qed.

(** C2. [main] sorts the daily rows ascending by date and takes the mean of
    the trailing seven [ticket_count] values.  The first six rows of the
    sorted series have fewer than seven values behind them and all get the
    same treatment: the average is undefined (NaN).  From the seventh row on
    the average is the mean of the last seven values; for the series
    2, 4, ..., 14 the seventh value is 8. *)
Theorem ma7_trailing_mean (daily_df : list Daily.t) :
  let sorted := sort_values_created_date daily_df in
  let xs := map Daily.ticket_count sorted in
  Permutation sorted daily_df
  /\ StronglySorted
       (fun a b => (Daily.created_date a <= Daily.created_date b)%Z) sorted
  /\ length (ma7 daily_df) = length daily_df
  /\ take 6 (ma7 daily_df) = replicate (Nat.min 6 (length daily_df)) None
  /\ drop 6 (ma7 daily_df) =
       map (fun j => Some (mean (take 7 (drop j xs))))
           (seq 0 (length daily_df - 6))
  /\ map Daily.ticket_count (sort_values_created_date sample_daily)
       = [2; 4; 6; 8; 10; 12; 14]%Z
  /\ ma7 sample_daily = [None; None; None; None; None; None; Some 8%Q].
Proof.
  cbv zeta.
  assert (Hp : Permutation (sort_values_created_date daily_df) daily_df)
    by apply stable_sort_perm.
  assert (Hlen : length (map Daily.ticket_count
                   (sort_values_created_date daily_df)) = length daily_df)
    by (rewrite length_map; apply (Permutation_length Hp)).
  split; [exact Hp |]. split.
  - eapply StronglySorted_weaken; [| apply stable_sort_sorted].
    + intros a b H. apply Z.leb_le. exact H.
    + intros a b. rewrite !Z.leb_le. lia.
    + intros a b c. rewrite !Z.leb_le. lia.
  - unfold ma7. repeat split.
    + unfold rolling_mean. now rewrite length_map, length_seq.
    + now rewrite rolling_mean_head, Hlen.
    + now rewrite rolling_mean_tail, Hlen.
Qed.

(** ** Leaderboards *)

Lemma series_max_spec (l : list Z) :
  match series_max l with
  | None => l = []
  | Some m => In m l /\ forall x, In x l -> (x <= m)%Z
  end.
Proof.
  induction l as [|x l IH]; simpl; [reflexivity |].
  destruct (series_max l) as [m|].
  - destruct IH as [Hin Hmax]. split.
    + destruct (Z.max_spec x m) as [[_ ->] | [_ ->]]; auto.
    + intros y [<- | Hy]; [lia | specialize (Hmax y Hy); lia].
  - subst l. split; [now left |]. intros y [<- | []]. lia.
Qed.

Lemma current_month_spec (agent_df : list Agent.t) (a : Agent.t) :
  In a (current_month agent_df) <->
  In a agent_df
  /\ forall b, In b agent_df -> (Agent.created_month b <= Agent.created_month a)%Z.
Proof.
  unfold current_month.
  pose proof (series_max_spec (map Agent.created_month agent_df)) as Hm.
  destruct (series_max (map Agent.created_month agent_df)) as [m|].
  - destruct Hm as [Hin Hmax]. rewrite filter_In, Z.eqb_eq. split.
    + intros [Ha <-]. split; [exact Ha |].
      intros b Hb. apply Hmax. now apply in_map.
    + intros [Ha Hle]. split; [exact Ha |].
      apply in_map_iff in Hin as (b & <- & Hb).
      specialize (Hle b Hb).
      specialize (Hmax _ (in_map Agent.created_month _ _ Ha)). lia.
  - apply map_eq_nil in Hm. subst agent_df. simpl. tauto.
Qed.

Lemma current_month_empty (agent_df : list Agent.t) :
  is_empty (current_month agent_df) = is_empty agent_df.
Proof.
  destruct agent_df as [|a l]; [reflexivity |].
  pose proof (series_max_spec (map Agent.created_month (a :: l))) as Hm.
  destruct (series_max (map Agent.created_month (a :: l))) as [m|] eqn:E;
    [| discriminate].
  destruct Hm as [Hin Hmax]. apply in_map_iff in Hin as (b & Hb & Hin).
  assert (Hc : In b (current_month (a :: l))).
  { apply current_month_spec. split; [exact Hin |].
    intros c Hc. rewrite Hb. apply Hmax. now apply in_map. }
  destruct (current_month (a :: l)); [destruct Hc | reflexivity].
Qed.

Lemma filter_sublist {A : Type} (p : A -> bool) (l : list A) :
  sublist (List.filter p l) l.
Proof.
  induction l as [|x l IH]; simpl; [constructor |].
  destruct (p x); now constructor.
Qed.

Lemma current_month_sublist (agent_df : list Agent.t) :
  sublist (current_month agent_df) agent_df.
Proof.
  unfold current_month.
  destruct (series_max _); [apply filter_sublist | apply sublist_nil_l].
Qed.

Lemma is_top_n_incl {A : Type} (n : nat) (geb : A -> A -> bool)
    (pool top : list A) (a : A) :
  is_top_n n geb pool top -> In a top -> In a pool.
Proof.
  intros (_ & _ & (rest & Hp & _) & _) Ha.
  apply (Permutation_in _ (Permutation_sym Hp)). apply in_or_app. now left.
Qed.

Lemma top_agents_is_top_n (agent_df : list Agent.t) :
  is_top_n 10 tickets_handled_geb (current_month agent_df)
           (top_agents agent_df).
Proof.
  apply nlargest_is_top_n; unfold tickets_handled_geb.
  - intros a b. rewrite !Z.leb_le. lia.
  - intros a b c. rewrite !Z.leb_le. lia.
Qed.

Lemma top_csat_is_top_n (agent_df : list Agent.t) :
  is_top_n 5 csat_rate_geb (csat_eligible agent_df) (top_csat agent_df).
Proof.
  apply nlargest_is_top_n; unfold csat_rate_geb.
  - intros a b. apply nan_last_geb_total.
  - intros a b c. apply nan_last_geb_trans.
Qed.

(** C4 (as the code has it). Both leaderboards are built from the rows of
    the latest month in the table, and from no other row.  The tickets
    leaderboard is the top 10 of those rows by [tickets_handled], largest
    first.  No column breaks ties: rows that tie appear in the order of the
    table, and when a tie straddles the cut the rows that come first in the
    table are the ones kept.  The CSAT leaderboard is the top 5 by
    [csat_rate], largest first and a missing rate counting lowest, among
    the rows of the latest month with at least 10 tickets. *)
Theorem leaderboards_from_latest_month (agent_df : list Agent.t) :
  (forall a,
      In a (current_month agent_df) <->
      In a agent_df
      /\ forall b, In b agent_df ->
                   (Agent.created_month b <= Agent.created_month a)%Z)
  /\ sublist (current_month agent_df) agent_df
  /\ is_top_n 10 tickets_handled_geb (current_month agent_df)
              (top_agents agent_df)
  /\ (forall a b,
        tickets_handled_geb a b = true <->
        (Agent.tickets_handled b <= Agent.tickets_handled a)%Z)
  /\ (forall a,
        In a (top_agents agent_df) ->
        In a agent_df
        /\ forall b, In b agent_df ->
                     (Agent.created_month b <= Agent.created_month a)%Z)
  /\ is_top_n 5 csat_rate_geb
       (List.filter (fun r => (10 <=? Agent.tickets_handled r)%Z)
                    (current_month agent_df))
       (top_csat agent_df)
  /\ (forall a b,
        csat_rate_geb a b = true <->
        match Agent.csat_rate a, Agent.csat_rate b with
        | Some p, Some q => (q <= p)%Q
        | Some _, None => True
        | None, Some _ => False
        | None, None => True
        end)
  /\ (forall a,
        In a (top_csat agent_df) ->
        In a (current_month agent_df)
        /\ (10 <= Agent.tickets_handled a)%Z).
Proof.
  split; [apply current_month_spec |].
  split; [apply current_month_sublist |].
  split; [apply top_agents_is_top_n |].
  split; [intros a b; unfold tickets_handled_geb; apply Z.leb_le |].
  split.
  - intros a Ha. apply current_month_spec.
    exact (is_top_n_incl _ _ _ _ _ (top_agents_is_top_n agent_df) Ha).
  - split; [apply top_csat_is_top_n |]. split.
    + intros a b. unfold csat_rate_geb, nan_last_geb.
      destruct (Agent.csat_rate a) as [p|], (Agent.csat_rate b) as [q|];
        try (split; [trivial | reflexivity]).
      * apply Qle_bool_iff.
      * split; [discriminate | intros []].
    + intros a Ha.
      apply (is_top_n_incl _ _ _ _ _ (top_csat_is_top_n agent_df)) in Ha.
      unfold csat_eligible in Ha. apply filter_In in Ha as [Hin Hge].
      split; [exact Hin | now apply Z.leb_le].
Qed.

(** C4, counterexample: the tickets leaderboard has no tie-break on the
    rows themselves.  Eleven agents of one month tie; the table and its
    reverse hold the same rows, yet the leaderboard of the first is A to J
    and that of the second is K down to B, neither set nor order being
    fixed by the rows (in particular not by [agent_name] ascending). *)
Lemma leaderboard_ties_follow_frame_order :
  Permutation tied_agents (rev tied_agents)
  /\ map Agent.agent_name (top_agents tied_agents)
     = ["A"; "B"; "C"; "D"; "E"; "F"; "G"; "H"; "I"; "J"]
  /\ map Agent.agent_name (top_agents (rev tied_agents))
     = ["K"; "J"; "I"; "H"; "G"; "F"; "E"; "D"; "C"; "B"]
  /\ ~ (forall df1 df2 : list Agent.t,
          Permutation df1 df2 -> top_agents df1 = top_agents df2).
Proof.
  split; [apply Permutation_rev |]. split; [reflexivity |].
  split; [reflexivity |].
  intros H. specialize (H tied_agents (rev tied_agents) (Permutation_rev _)).
  apply (f_equal (map Agent.agent_name)) in H. vm_compute in H.
  discriminate H.
Qed.

(** ** Heatmap pivot *)

Lemma heat_key_match (r : Heat.t) (d : string) (h : Z) :
  String.eqb (Heat.created_day_of_week r) d && (Heat.created_hour r =? h)%Z
    = true
  <-> (Heat.created_day_of_week r, Heat.created_hour r) = (d, h).
Proof.
  rewrite andb_true_iff, String.eqb_eq, Z.eqb_eq.
  split; [intros [-> ->]; reflexivity | intros [= -> ->]; auto].
Qed.

Lemma group_sum_fold (df : list Heat.t) (m : gmap (string * Z) Z)
    (d : string) (h : Z) :
  foldl (fun m r =>
           partial_alter
             (fun o => Some (default 0%Z o + Heat.ticket_count r)%Z)
             (Heat.created_day_of_week r, Heat.created_hour r) m)
        m df !! (d, h)
  = match cell_sum df d h with
    | None => m !! (d, h)
    | Some t => Some (default 0%Z (m !! (d, h)) + t)%Z
    end.
Proof.
  revert m. induction df as [|r df IH]; intros m; [reflexivity |].
  simpl foldl. rewrite IH. unfold cell_sum. simpl List.filter.
  destruct (String.eqb (Heat.created_day_of_week r) d
            && (Heat.created_hour r =? h)%Z) eqn:E.
  - apply heat_key_match in E. rewrite E.
    rewrite lookup_partial_alter_eq.
    destruct (List.filter _ df) as [|r' rows]; simpl; f_equal; lia.
  - assert (Hne : (Heat.created_day_of_week r, Heat.created_hour r) <> (d, h)).
    { intros Heq. apply (heat_key_match r d h) in Heq. congruence. }
    rewrite lookup_partial_alter_ne by exact Hne. reflexivity.
Qed.

Lemma group_sum_lookup (df : list Heat.t) (d : string) (h : Z) :
  group_sum df !! (d, h) = cell_sum df d h.
Proof.
  unfold group_sum. rewrite group_sum_fold, lookup_empty.
  destruct (cell_sum df d h); simpl; [f_equal; lia | reflexivity].
Qed.

Lemma cell_sum_absent_day (df : list Heat.t) (d : string) (h : Z) :
  ~ In d (map Heat.created_day_of_week df) -> cell_sum df d h = None.
Proof.
  intros Hd. unfold cell_sum.
  replace (List.filter _ df) with (@nil Heat.t); [reflexivity |].
  symmetry. induction df as [|r df IH]; simpl; [reflexivity |].
  destruct (String.eqb_spec (Heat.created_day_of_week r) d) as [E | E].
  - exfalso. apply Hd. now left.
  - simpl. apply IH. intros H. apply Hd. now right.
Qed.

Lemma lookup_row_zip_map (f : string -> list (option Z)) (l : string)
    (idx : list string) :
  lookup_row l (zip idx (map f idx))
  = if decide (l ∈ idx) then Some (f l) else None.
Proof.
  induction idx as [|x idx IH]; simpl; [reflexivity |].
  destruct (String.eqb_spec x l) as [-> | Hne].
  - destruct (decide (l ∈ l :: idx)) as [_ | Hn]; [reflexivity |].
    exfalso. apply Hn. apply list_elem_of_here.
  - rewrite IH. destruct (decide (l ∈ idx)) as [Hi | Hi];
      destruct (decide (l ∈ x :: idx)) as [Hj | Hj]; try reflexivity.
    + exfalso. apply Hj. now apply list_elem_of_further.
    + exfalso. apply list_elem_of_In in Hj. destruct Hj as [-> | Hj]; [congruence |]. apply Hi. now apply list_elem_of_In.
Qed.

Lemma sorted_dedup_In {A : Type} `{EqDecision A} (leb : A -> A -> bool)
    (l : list A) (x : A) :
  In x (stable_sort leb (remove_dups l)) <-> In x l.
Proof.
  rewrite <- !list_elem_of_In, <- (elem_of_remove_dups l x).
  rewrite !list_elem_of_In. split; apply Permutation_in.
  - apply stable_sort_perm.
  - symmetry. apply stable_sort_perm.
Qed.

Lemma heatmap_pivot_values (heatmap_df : list Heat.t) :
  pivot_values (heatmap_pivot heatmap_df) =
    map (fun d => map (cell_sum heatmap_df d)
                      (pivot_columns (heatmap_pivot heatmap_df)))
        day_order.
Proof.
  unfold heatmap_pivot, reindex, pivot_table. cbn [pivot_values pivot_columns pivot_index].
  apply List.map_ext. intros d.
  rewrite lookup_row_zip_map.
  destruct (decide _) as [Hin | Hout]; cbn [default].
  - apply List.map_ext. intros h. apply group_sum_lookup.
  - rewrite list_elem_of_In, sorted_dedup_In in Hout.
    induction (stable_sort Z.leb (remove_dups (map Heat.created_hour heatmap_df)))
      as [|h cols IH]; simpl; [reflexivity |].
    now rewrite cell_sum_absent_day, <- IH.
Qed.

(** C5 (as the code has it). Rows with the same day and hour are summed
    into one cell; the matrix has the seven rows Monday to Sunday in that
    order and one column per distinct hour of the table, in ascending order;
    a (day, hour) pair without a row is an absent value, so a day without
    rows is a row of absent values.  For the rows (Monday, 9, 5) and
    (Monday, 9, 3) the cell at (Monday, 9:00) is 8 and the matrix is 7 by 1. *)
Theorem heatmap_pivot_cells (heatmap_df : list Heat.t) :
  let p := heatmap_pivot heatmap_df in
  pivot_index p = day_order
  /\ StronglySorted Z.le (pivot_columns p)
  /\ NoDup (pivot_columns p)
  /\ (forall h, In h (pivot_columns p) <-> In h (map Heat.created_hour heatmap_df))
  /\ pivot_values p =
       map (fun d => map (cell_sum heatmap_df d) (pivot_columns p)) day_order
  /\ pivot_shape p = (7%nat, length (remove_dups (map Heat.created_hour heatmap_df)))
  /\ (forall d h,
        ~ In d (map Heat.created_day_of_week heatmap_df) ->
        cell_sum heatmap_df d h = None)
  /\ heatmap_pivot sample_heatmap =
       {| pivot_index := day_order;
          pivot_columns := [9%Z];
          pivot_values :=
            [[Some 8%Z]; [None]; [None]; [None]; [None]; [None]; [None]] |}
  /\ map hour_label (pivot_columns (heatmap_pivot sample_heatmap)) = ["9:00"]
  /\ pivot_cell (heatmap_pivot sample_heatmap) "Monday" 9 = Some 8%Z.
Proof.
  cbv zeta. split; [reflexivity |].
  assert (Hcols : pivot_columns (heatmap_pivot heatmap_df)
            = stable_sort Z.leb (remove_dups (map Heat.created_hour heatmap_df)))
    by reflexivity.
  assert (Hperm := stable_sort_perm Z.leb
            (remove_dups (map Heat.created_hour heatmap_df))).
  split.
  { rewrite Hcols. eapply StronglySorted_weaken; [| apply stable_sort_sorted].
    - intros a b H. apply Z.leb_le. exact H.
    - intros a b. rewrite !Z.leb_le. lia.
    - intros a b c. rewrite !Z.leb_le. lia. }
  split.
  { rewrite Hcols, Hperm. apply NoDup_remove_dups. }
  split.
  { intros h. rewrite Hcols. apply sorted_dedup_In. }
  split; [apply heatmap_pivot_values |].
  split.
  { unfold pivot_shape. rewrite Hcols, (Permutation_length Hperm). reflexivity. }
  split; [intros d h; apply cell_sum_absent_day |].
  repeat split; vm_compute; reflexivity.
Qed.

(** C5, counterexample: for the two rows of the specification's own
    example the pivot has one column, so the matrix is 7 by 1 and not 7 by
    24. *)
Lemma heatmap_not_always_7_by_24 :
  pivot_shape (heatmap_pivot sample_heatmap) = (7%nat, 1%nat)
  /\ ~ (forall heatmap_df,
          pivot_shape (heatmap_pivot heatmap_df) = (7%nat, 24%nat)).
Proof.
  split; [reflexivity |].
  intros H. specialize (H sample_heatmap). vm_compute in H. discriminate.
Qed.

(** ** The CSAT rate of the summary query *)

Lemma COUNTIF_nonneg {A : Type} (p : A -> bool) (rows : list A) :
  (0 <= COUNTIF p rows)%Z.
Proof. unfold COUNTIF, COUNT. lia. Qed.

Lemma COUNTIF_cons {A : Type} (p : A -> bool) (r : A) (rows : list A) :
  COUNTIF p (r :: rows) = ((if p r then 1 else 0) + COUNTIF p rows)%Z.
Proof.
  unfold COUNTIF, COUNT. simpl. destruct (p r); simpl length; lia.
Qed.

Lemma COUNTIF_rated (T : list Ticket.t) :
  COUNTIF is_rated T = (COUNTIF is_good T + COUNTIF is_bad T)%Z.
Proof.
  induction T as [|r T IH]; [reflexivity |].
  rewrite !COUNTIF_cons, IH. unfold is_rated, is_good, is_bad.
  destruct (Ticket.csat_score r) as [s|]; [| lia].
  destruct (String.eqb_spec s "good") as [-> | Hg]; simpl; [lia |].
  destruct (String.eqb s "bad"); lia.
Qed.

Lemma Qmake_tenth (n : Z) : (n # 10 == inject_Z n * (1 # 10))%Q.
Proof. unfold Qeq. simpl. lia. Qed.

Lemma ROUND1_nonneg (x : Q) :
  (0 <= x)%Q ->
  (exists n : Z, ROUND1 x = Qred (n # 10))
  /\ (x - (1 # 20) < ROUND1 x)%Q
  /\ (ROUND1 x <= x + (1 # 20))%Q.
Proof.
  intros Hx. unfold ROUND1, round_half_away.
  assert (Hx10 : (0 <= x * 10)%Q) by lra.
  apply Qltb_ge in Hx10. rewrite Hx10.
  set (n := Qfloor (x * 10 + (1 # 2))).
  split; [now exists n |].
  rewrite Qred_correct, Qmake_tenth.
  pose proof (Qfloor_le (x * 10 + (1 # 2))) as Hlo.
  pose proof (Qlt_floor (x * 10 + (1 # 2))) as Hhi.
  fold n in Hlo, Hhi. rewrite inject_Z_plus in Hhi.
  change (inject_Z 1) with 1%Q in Hhi.
  split; lra.
Qed.

(** C8. The summary [csat_rate] is NULL when no ticket is rated good or bad;
    otherwise it is [100 * good / (good + bad)] rounded to one decimal
    place: a multiple of one tenth within a twentieth of the exact value
    (halfway cases up).  With 130 good and 70 bad ratings it is 65.0. *)
Theorem csat_rate_rounded (T : list Ticket.t) :
  let good := COUNTIF is_good T in
  let bad := COUNTIF is_bad T in
  match sql_csat_rate T with
  | None => (good + bad = 0)%Z
  | Some r =>
      (0 < good + bad)%Z
      /\ (exists n : Z, r = Qred (n # 10))
      /\ (100 * inject_Z good / inject_Z (good + bad) - (1 # 20) < r)%Q
      /\ (r <= 100 * inject_Z good / inject_Z (good + bad) + (1 # 20))%Q
  end
  /\ Stats.csat_rate (sql_current_stats 0 T) = sql_csat_rate T
  /\ sql_csat_rate (rated_sample 130 70 25) = Some 65%Q
  /\ sql_csat_rate (rated_sample 0 0 25) = None.
Proof.
  cbv zeta. split; [| repeat split; vm_compute; reflexivity].
  unfold sql_csat_rate, NULLIF, percent1. rewrite COUNTIF_rated.
  pose proof (COUNTIF_nonneg is_good T) as Hg.
  pose proof (COUNTIF_nonneg is_bad T) as Hb.
  set (good := COUNTIF is_good T) in *. set (bad := COUNTIF is_bad T) in *.
  destruct (Z.eqb_spec (good + bad) 0) as [E | E]; [exact E |].
  assert (Hpos : (0 < good + bad)%Z) by lia.
  split; [exact Hpos |].
  apply ROUND1_nonneg.
  apply Qle_shift_div_l.
  - change 0%Q with (inject_Z 0). now rewrite <- Zlt_Qlt.
  - rewrite Qmult_0_l. apply Qmult_le_0_compat; [discriminate |].
    change 0%Q with (inject_Z 0). now rewrite <- Zle_Qle.
Qed.

(** ** The result cache *)

Lemma load_unfold (env : Env) (k : QueryKey) (now : Z) :
  load env k now = cached k 300 now (producer env k now).
Proof. destruct k; reflexivity. Qed.

Lemma store_lookup (s : Session) (k : QueryKey) (now : Z) (v : ResultT k) :
  data_cache (store s k now v) k = Some (now, v).
Proof. destruct k; reflexivity. Qed.

Lemma producer_effect (env : Env) (k : QueryKey) (now : Z) (s : Session) :
  producer_calls (fst (producer env k now s)) = (k, now) :: producer_calls s
  /\ data_cache (fst (producer env k now s)) = data_cache s.
Proof.
  unfold producer, bind, record_call, get_bq_client, lift. simpl.
  destruct (bq_client s) as [c|]; simpl.
  - destruct (run_query env c k now) as [e|frame]; simpl; [auto |].
    destruct (finish k frame); simpl; auto.
  - destruct (bigquery_Client env _ _) as [e|c]; simpl; [auto |].
    destruct (run_query env c k now) as [e|frame]; simpl; [auto |].
    destruct (finish k frame); simpl; auto.
Qed.

Lemma invocations_cons (k : QueryKey) (now : Z) (s s' : Session) :
  producer_calls s' = (k, now) :: producer_calls s ->
  invocations k s' = S (invocations k s).
Proof.
  unfold invocations. intros ->. simpl.
  destruct (QueryKey_eq_dec k k); [reflexivity | congruence].
Qed.

(** A call that finds no live entry runs the producer. *)
Lemma cached_miss (env : Env) (k : QueryKey) (now : Z) (s : Session) :
  (forall t0 v0, data_cache s k = Some (t0, v0) -> (300 <= now - t0)%Z) ->
  invocations k (fst (load env k now s)) = S (invocations k s)
  /\ forall v, snd (load env k now s) = Return v ->
               data_cache (fst (load env k now s)) k = Some (now, v).
Proof.
  intros Hmiss. rewrite load_unfold. unfold cached.
  destruct (producer_effect env k now s) as [Hcalls _].
  assert (Hrun :
    let r := match producer env k now s with
             | (s', Raise e) => (s', Raise e)
             | (s', Return v) => (store s' k now v, Return v)
             end in
    invocations k (fst r) = S (invocations k s)
    /\ forall v, snd r = Return v -> data_cache (fst r) k = Some (now, v)).
  { destruct (producer env k now s) as [s' [e|v']]; simpl in *.
    - split; [now apply (invocations_cons k now) | discriminate].
    - split; [now apply (invocations_cons k now) |].
      intros v [= <-]. apply store_lookup. }
  destruct (data_cache s k) as [[t0 v0]|]; [| exact Hrun].
  specialize (Hmiss t0 v0 eq_refl).
  destruct (Z.ltb_spec (now - t0) 300); [lia | exact Hrun].
Qed.

(** A call that finds a live entry returns it and changes nothing. *)
Lemma cached_hit (env : Env) (k : QueryKey) (now t0 : Z) (s : Session)
    (v : ResultT k) :
  data_cache s k = Some (t0, v) -> (now - t0 < 300)%Z ->
  load env k now s = (s, Return v).
Proof.
  intros Hentry Hlive. rewrite load_unfold. unfold cached. rewrite Hentry.
  destruct (Z.ltb_spec (now - t0) 300); [reflexivity | lia].
Qed.

(** C1 (as the code has it). Every query loader is cached for 300 seconds.
    When a call at [now1] finds no live entry and the query succeeds, the
    query ran once for it; a second call less than 300 seconds later is
    answered from the entry, with the same value and without running the
    query; a call 300 seconds or more after the first runs the query
    again.  There are five query loaders; the sixth cached function, the
    warehouse client, is kept without expiry. *)
Theorem cache_ttl_window (env : Env) (k : QueryKey) (s : Session)
    (now1 now2 now3 : Z) (v : ResultT k)
    (Hmiss : forall t0 v0,
        data_cache s k = Some (t0, v0) -> (300 <= now1 - t0)%Z)
    (Hfirst : snd (load env k now1 s) = Return v)
    (Hwithin : (now2 - now1 < 300)%Z)
    (Hafter : (300 <= now3 - now1)%Z) :
  let s1 := fst (load env k now1 s) in
  ttl_seconds (Loader k) = Some 300%Z
  /\ invocations k s1 = S (invocations k s)
  /\ load env k now2 s1 = (s1, Return v)
  /\ invocations k (fst (load env k now2 s1)) = S (invocations k s)
  /\ invocations k (fst (load env k now3 s1)) = S (S (invocations k s))
  /\ List.filter is_query cached_functions =
       map Loader [DailyMetrics; AgentPerformance; CurrentStats; TagAnalysis;
                   HourlyHeatmap]
  /\ ttl_seconds GetBqClient = None.
Proof.
  cbv zeta.
  destruct (cached_miss env k now1 s Hmiss) as [Hcount Hentry].
  specialize (Hentry v Hfirst).
  assert (Hhit := cached_hit env k now2 now1 _ v Hentry Hwithin).
  split; [destruct k; reflexivity |].
  split; [exact Hcount |].
  split; [exact Hhit |].
  split; [rewrite Hhit; exact Hcount |].
  split; [| split; reflexivity].
  rewrite <- Hcount. apply cached_miss.
  intros t0 v0 H0. rewrite Hentry in H0. injection H0 as <- _. exact Hafter.
Qed.

Lemma cache_ttl_window_witness :
  snd (load (sample_env []) TagAnalysis 1000 empty_session) = Return []
  /\ load (sample_env []) TagAnalysis 1299
       (fst (load (sample_env []) TagAnalysis 1000 empty_session))
     = (fst (load (sample_env []) TagAnalysis 1000 empty_session), Return [])
  /\ invocations TagAnalysis
       (fst (load (sample_env []) TagAnalysis 1300
               (fst (load (sample_env []) TagAnalysis 1000 empty_session))))
     = 2%nat.
Proof.
  split; [reflexivity |].
  pose proof (cache_ttl_window (sample_env []) TagAnalysis empty_session
                1000 1299 1300 []) as H.
  cbv zeta in H.
  destruct H as (_ & _ & Hhit & _ & Hagain & _).
  - intros t0 v0 H0. discriminate H0.
  - reflexivity.
  - reflexivity.
  - discriminate.
  - split; [exact Hhit | exact Hagain].
Defined.

(** C1, counterexample: the script has no six query functions cached for
    300 seconds.  Of its six cached functions five are query loaders, and
    the sixth has no TTL. *)
Lemma not_six_query_keys :
  length (List.filter is_query cached_functions) = 5%nat
  /\ ttl_seconds GetBqClient <> Some 300%Z
  /\ ~ (exists ks : list CachedFunction,
          List.NoDup ks /\ length ks = 6%nat
          /\ forall f, In f ks -> ttl_seconds f = Some 300%Z).
Proof.
  split; [reflexivity |]. split; [discriminate |].
  intros (ks & Hnd & Hlen & Hall).
  assert (Hincl : incl ks (map Loader load_order)).
  { intros f Hf. specialize (Hall f Hf).
    destruct f as [|k]; [discriminate |]. destruct k; simpl; tauto. }
  pose proof (NoDup_incl_length Hnd Hincl) as Hle.
  rewrite Hlen in Hle. simpl in Hle. lia.
Qed.


(** ** The render pass *)

Lemma header_not_metric_card : ~ is_metric_card header_html.
Proof.
  intros (value & label & delta & ty & H).
  unfold render_metric_card, card_template, header_html, attr in H.
  simpl in H. discriminate H.
Qed.

Lemma run_loaders_raise (env : Env) (now : Z) (pre post : list QueryKey)
    (k : QueryKey) (e : Exception) (s : Session) :
  snd (run_loaders env now pre s) = Return tt ->
  snd (load env k now (fst (run_loaders env now pre s))) = Raise e ->
  run_loaders env now (pre ++ k :: post) s
  = (fst (load env k now (fst (run_loaders env now pre s))), Raise e).
Proof.
  revert s. induction pre as [|a pre IH]; intros s Hpre Hk;
    cbn [run_loaders app] in *; unfold bind, ret in *; cbn [fst snd] in *.
  - destruct (load env k now s) as [s1 [e1|v1]]; cbn [fst snd] in *;
      [congruence | discriminate].
  - destruct (load env a now s) as [s1 [e1|v1]]; cbn [fst snd] in *.
    + discriminate.
    + now apply IH.
Qed.

(** The [try] block raises exactly when the sequence of its five calls
    does, with the same exception and in the same state. *)
Lemma load_all_raise (env : Env) (now : Z) (s s' : Session) (e : Exception) :
  run_loaders env now load_order s = (s', Raise e) ->
  load_all env now s = (s', Raise e).
Proof.
  unfold load_all, load_order, run_loaders, load_current_stats,
    load_daily_metrics, load_agent_performance, load_tag_analysis,
    load_hourly_heatmap, bind, ret.
  destruct (load env CurrentStats now s) as [s1 [e1|v1]]; [intros [= <- <-]; reflexivity |].
  destruct (load env DailyMetrics now s1) as [s2 [e2|v2]]; [intros [= <- <-]; reflexivity |].
  destruct (load env AgentPerformance now s2) as [s3 [e3|v3]]; [intros [= <- <-]; reflexivity |].
  destruct (load env TagAnalysis now s3) as [s4 [e4|v4]]; [intros [= <- <-]; reflexivity |].
  destruct (load env HourlyHeatmap now s4) as [s5 [e5|v5]]; [intros [= <- <-]; reflexivity |].
  intros H. discriminate H.
Qed.

(** C6. When a loader raises at its turn in the [try] block of [main] (the
    loaders before it having returned), the pass emits the page header and
    one error box with the exception's text, and nothing else: no chart and
    no metric card.  The loaders after it are not called. *)
Theorem failed_load_aborts_render (env : Env) (now : Z) (s : Session)
    (pre post : list QueryKey) (k : QueryKey) (e : Exception)
    (Horder : load_order = (pre ++ k :: post)%list)
    (Hpre : snd (run_loaders env now pre s) = Return tt)
    (Hfail : snd (load env k now (fst (run_loaders env now pre s))) = Raise e) :
  let ws := snd (main env now s) in
  ws = [st_markdown header_html; st_error ("Error loading data: " +:+ e)]
  /\ errors ws = ["Error loading data: " +:+ e]
  /\ figures ws = []
  /\ (forall html, In html (markdowns ws) -> ~ is_metric_card html)
  /\ fst (main env now s)
     = fst (load env k now (fst (run_loaders env now pre s))).
Proof.
  cbv zeta.
  assert (Hmain :
    snd (main env now s)
      = [st_markdown header_html; st_error ("Error loading data: " +:+ e)]
    /\ fst (main env now s)
       = fst (load env k now (fst (run_loaders env now pre s)))).
  { pose proof (run_loaders_raise env now pre post k e s Hpre Hfail) as Hrun.
    rewrite <- Horder in Hrun. apply load_all_raise in Hrun.
    unfold main. rewrite Hrun. split; reflexivity. }
  destruct Hmain as [Hws Hst]. rewrite Hws.
  repeat split; try reflexivity; [| exact Hst].
  intros html [<- | []]. apply header_not_metric_card.
Qed.

Lemma failed_load_aborts_render_witness :
  snd (run_loaders (sample_env [TagAnalysis]) 0
         [CurrentStats; DailyMetrics; AgentPerformance] empty_session)
    = Return tt
  /\ snd (load (sample_env [TagAnalysis]) TagAnalysis 0
            (fst (run_loaders (sample_env [TagAnalysis]) 0
                    [CurrentStats; DailyMetrics; AgentPerformance]
                    empty_session)))
     = Raise "403 Access Denied"
  /\ snd (main (sample_env [TagAnalysis]) 0 empty_session)
     = [st_markdown header_html;
        st_error "Error loading data: 403 Access Denied"].
Proof.
  split; [reflexivity |]. split; [reflexivity |].
  apply (failed_load_aborts_render (sample_env [TagAnalysis]) 0 empty_session
           [CurrentStats; DailyMetrics; AgentPerformance] [HourlyHeatmap]
           TagAnalysis "403 Access Denied");
    reflexivity.
Defined.

Lemma nlargest_empty {A : Type} (n : nat) (geb : A -> A -> bool)
    (l : list A) :
  is_empty (nlargest (S n) geb l) = is_empty l.
Proof.
  unfold nlargest.
  pose proof (Permutation_length (stable_sort_perm geb l)) as Hlen.
  destruct l as [|x l]; [reflexivity |].
  destruct (stable_sort geb (x :: l)); [discriminate | reflexivity].
Qed.

Lemma agent_section_unfold (agent_df : list Agent.t) :
  agent_section agent_df =
    st_markdown (section_header "👥 Agent Performance")
    :: (if is_empty agent_df then []
        else st_columns [2; 1]%nat
             :: st_plotly_chart (fig_top_agents agent_df)
             :: (if is_empty (csat_eligible agent_df) then []
                 else [st_plotly_chart (fig_top_csat agent_df)])).
Proof.
  unfold agent_section, top_csat.
  rewrite current_month_empty, nlargest_empty.
  destruct (is_empty agent_df); [reflexivity |].
  destruct (is_empty (csat_eligible agent_df)); reflexivity.
Qed.

(** Whether the part of [main] after the [try] block runs to its end. *)
Lemma died_kpi_row (st : Stats.t) :
  died (kpi_row st)
  = match Stats.csat_rate st with Some _ => false | None => true end.
Proof.
  unfold kpi_row, csat_card, csat_delta, csat_delta_type, csat_above_65.
  destruct (Stats.csat_rate st); reflexivity.
Qed.

Lemma dashboard_figures (d : Loaded) :
  figures (dashboard d) =
    if died (kpi_row (stats d)) then []
    else ([ fig_volume_trend (daily_df d); fig_csat_trend (daily_df d);
            fig_heatmap (heatmap_df d); fig_categories (tag_df d) ]
          ++ (if is_empty (agent_df d) then []
              else fig_top_agents (agent_df d)
                   :: (if is_empty (csat_eligible (agent_df d)) then []
                       else [fig_top_csat (agent_df d)])))%list.
Proof.
  unfold dashboard. rewrite agent_section_unfold.
  pose proof (died_kpi_row (stats d)) as Hk. revert Hk.
  unfold kpi_row, csat_card, csat_delta, csat_delta_type, csat_above_65.
  destruct (Stats.csat_rate (stats d)); intros ->; [| reflexivity].
  destruct (is_empty (agent_df d)); [reflexivity |].
  destruct (is_empty (csat_eligible (agent_df d))); reflexivity.
Qed.

(** C7 (as the code has it). For a summary row whose CSAT rate is a number,
    empty tables raise nothing: the pass runs to its end without an
    uncaught exception and without an error box.  With an empty agent table
    (the only way the latest month can have no rows) the agent part of the
    page is its section header alone: both leaderboard charts are left out.
    With agent rows but none that has at least 10 tickets, the tickets
    leaderboard is drawn and only the CSAT chart is left out.  The category
    chart is always drawn, with one bar per tag up to eight, so with zero
    bars for an empty tag table. *)
Theorem empty_results_skip_charts (d : Loaded) (r : Q)
    (Hrate : Stats.csat_rate (stats d) = Some r) :
  died (dashboard d) = false
  /\ errors (dashboard d) = []
  /\ agent_section (agent_df d) =
       st_markdown (section_header "👥 Agent Performance")
       :: (if is_empty (agent_df d) then []
           else st_columns [2; 1]%nat
                :: st_plotly_chart (fig_top_agents (agent_df d))
                :: (if is_empty (csat_eligible (agent_df d)) then []
                    else [st_plotly_chart (fig_top_csat (agent_df d))]))
  /\ is_empty (current_month (agent_df d)) = is_empty (agent_df d)
  /\ figures (dashboard d) =
       ([ fig_volume_trend (daily_df d); fig_csat_trend (daily_df d);
          fig_heatmap (heatmap_df d); fig_categories (tag_df d) ]
        ++ (if is_empty (agent_df d) then []
            else fig_top_agents (agent_df d)
                 :: (if is_empty (csat_eligible (agent_df d)) then []
                     else [fig_top_csat (agent_df d)])))%list
  /\ bar_count (fig_categories (tag_df d)) = Nat.min 8 (length (tag_df d))
  /\ fig_categories [] = {| traces := [Bar Horizontal [] []]; hline := None |}
  /\ (forall env now s s',
        load_all env now s = (s', Return d) ->
        snd (main env now s)
        = (st_markdown header_html
           :: dashboard d
           ++ [st_markdown (footer_html (strftime_now env now))])%list).
Proof.
  assert (Hsec := agent_section_unfold (agent_df d)).
  assert (Hkpi : died (kpi_row (stats d)) = false).
  { unfold kpi_row, csat_card, csat_delta, csat_delta_type, csat_above_65.
    rewrite Hrate. reflexivity. }
  assert (Hfig := dashboard_figures d).
  rewrite Hkpi in Hfig.
  assert (Hdied : died (dashboard d) = false).
  { unfold dashboard. rewrite Hkpi. unfold died in *.
    rewrite existsb_app, Hkpi, Hsec.
    destruct (is_empty (agent_df d)); [reflexivity |].
    destruct (is_empty (csat_eligible (agent_df d))); reflexivity. }
  split; [exact Hdied |]. split.
  { unfold dashboard. rewrite Hkpi, Hsec.
    unfold kpi_row, csat_card, csat_delta, csat_delta_type, csat_above_65.
    rewrite Hrate.
    destruct (is_empty (agent_df d)); [reflexivity |].
    destruct (is_empty (csat_eligible (agent_df d))); reflexivity. }
  split; [exact Hsec |].
  split; [apply current_month_empty |].
  split; [exact Hfig |].
  split.
  { change (bar_count (fig_categories (tag_df d)))
      with (length (map Tag.tag (take 8 (tag_df d))) + 0)%nat.
    rewrite length_map, length_take. lia. }
  split; [reflexivity |].
  intros env now s s' Hload. unfold main. rewrite Hload, Hdied. reflexivity.
Qed.

Lemma empty_results_skip_charts_witness :
  Stats.csat_rate (stats (loaded_with_stats (sample_stats 120 100)))
    = Some (655 # 10)
  /\ died (dashboard (loaded_with_stats (sample_stats 120 100))) = false
  /\ length (figures (dashboard (loaded_with_stats (sample_stats 120 100))))
     = 6%nat.
Proof.
  split; [reflexivity |].
  destruct (empty_results_skip_charts
              (loaded_with_stats (sample_stats 120 100)) (655 # 10) eq_refl)
    as (Hdied & _ & _ & _ & Hfig & _).
  split; [exact Hdied |]. rewrite Hfig. reflexivity.
Defined.

(** C7, counterexample: with an empty agent table the agent part of the
    page is not skipped entirely, its section header is still emitted. *)
Lemma agent_section_header_not_skipped :
  current_month [] = []
  /\ agent_section [] = [st_markdown (section_header "👥 Agent Performance")]
  /\ ~ (forall agent_df,
          current_month agent_df = [] -> agent_section agent_df = []).
Proof.
  split; [reflexivity |]. split; [reflexivity |].
  intros H. specialize (H [] eq_refl). discriminate H.
Qed.

(** * Further properties *)

(** ** KPI cards: what is shown and what is not *)

(** X1. The Open Backlog card is rendered without a delta text, so the
    status computed from the 150 threshold never reaches the page: the card
    is the same for every [delta_type].  The same holds for the resolution
    and same-day cards. *)
Theorem cards_without_delta_show_no_status (s : Stats.t) (ty : string) :
  backlog_card s =
    render_metric_card (format_count (Stats.backlog s)) "Open Backlog" None ty
  /\ backlog_card s =
       card_template (pretty (Stats.backlog s)) "Open Backlog" EmptyString
  /\ resolution_card s =
       render_metric_card
         (format_f1 (Stats.avg_resolution_hours s) +:+ "h") "Avg Resolution"
         (Some EmptyString) ty
  /\ same_day_card s =
       card_template (format_f0 (Stats.same_day_pct s) +:+ "%")
         "Same-Day Resolution" EmptyString.
Proof. repeat split. Qed.

Lemma round_half_even_nearest (q : Q) (n : Z) :
  (inject_Z n - (1 # 2) < q)%Q -> (q < inject_Z n + (1 # 2))%Q ->
  round_half_even q = n.
Proof.
  destruct q as [a b]. unfold Qlt, round_half_even.
  cbn [Qnum Qden Qplus Qminus Qopp inject_Z Qmult].
  rewrite !Z.mul_1_r, !Pos2Z.inj_mul. change (Z.pos 2) with 2%Z.
  change (Z.pos 1) with 1%Z. rewrite ?Z.mul_1_l, ?Z.mul_1_r.
  intros Hlo Hhi.
  pose proof (Z.div_mod a (Z.pos b) ltac:(lia)) as Hdm.
  pose proof (Z.mod_pos_bound a (Z.pos b) ltac:(lia)) as Hr.
  set (fl := (a / Z.pos b)%Z) in *. set (r := (a mod Z.pos b)%Z) in *.
  assert (Hb : (0 < Z.pos b)%Z) by lia.
  set (d := Z.pos b) in *.
  assert (H1 : (n - 1 <= fl)%Z) by nia.
  assert (H2 : (fl <= n)%Z) by nia.
  assert (Hcase : fl = n \/ fl = (n - 1)%Z) by lia.
  destruct Hcase as [-> | ->].
  - destruct (Z.ltb_spec (2 * r) d); [reflexivity | nia].
  - destruct (Z.ltb_spec (2 * r) d); [nia |].
    destruct (Z.ltb_spec d (2 * r)); [lia | nia].
Qed.

Lemma Qabs_nonneg_eq (q : Q) : (0 <= q)%Q -> Qabs q = q.
Proof.
  destruct q as [a b]. unfold Qle. simpl. intros H.
  rewrite Z.abs_eq by lia. reflexivity.
Qed.

(** X2. The CSAT card prints the rate rounded to the nearest whole percent
    but compares the exact rate with 65: for a rate within half a point of
    [n] the card shows [n]%, and the delta line appears exactly when the
    exact rate is above 65.  So a card reading 65% may or may not carry the
    delta. *)
Theorem csat_card_rounds_display_not_threshold (s : Stats.t) (r : Q) (n : Z)
    (Hrate : Stats.csat_rate s = Some r)
    (Hpos : (0 <= r)%Q)
    (Hlo : (inject_Z n - (1 # 2) < r)%Q)
    (Hhi : (r < inject_Z n + (1 # 2))%Q) :
  csat_card s =
    Return
      (card_template (pretty n +:+ "%") "CSAT Score"
         (if Qltb 65 r
          then delta_block "metric-delta-positive" "↑" "2.3% vs last week"
          else EmptyString)).
Proof.
  unfold csat_card, render_metric_card, csat_delta, csat_delta_type,
    csat_above_65, format_f0.
  rewrite Hrate.
  assert (Hs : Qltb r 0 = false) by now apply Qltb_ge.
  rewrite Hs, (Qabs_nonneg_eq r Hpos), (round_half_even_nearest r n Hlo Hhi).
  destruct (Qltb 65 r); reflexivity.
Qed.

Lemma csat_card_rounds_display_not_threshold_witness :
  csat_card (stats_with_csat (Some (654 # 10))) =
    Return
      (card_template "65%" "CSAT Score"
         (delta_block "metric-delta-positive" "↑" "2.3% vs last week")).
Proof.
  apply (csat_card_rounds_display_not_threshold
           (stats_with_csat (Some (654 # 10))) (654 # 10) 65).
  - reflexivity.
  - unfold Qle; simpl; lia.
  - unfold Qlt; simpl; lia.
  - unfold Qlt; simpl; lia.
Defined.

(** ** The summary query *)

Lemma COUNTIF_le_COUNT {A : Type} (p : A -> bool) (rows : list A) :
  (COUNTIF p rows <= COUNT rows)%Z.
Proof.
  unfold COUNTIF, COUNT. pose proof (List.filter_length_le p rows). lia.
Qed.

Lemma COUNTIF_mono {A : Type} (p q : A -> bool) (rows : list A) :
  (forall r, In r rows -> p r = true -> q r = true) ->
  (COUNTIF p rows <= COUNTIF q rows)%Z.
Proof.
  induction rows as [|r rows IH]; intros H; [reflexivity |].
  rewrite !COUNTIF_cons.
  assert (IH' : (COUNTIF p rows <= COUNTIF q rows)%Z).
  { apply IH. intros x Hx. apply H. now right. }
  destruct (p r) eqn:Hp.
  - rewrite (H r (or_introl eq_refl) Hp). lia.
  - destruct (q r); lia.
Qed.

Lemma ROUND1_percent_range (x : Q) :
  (0 <= x)%Q -> (x <= 100)%Q -> (0 <= ROUND1 x)%Q /\ (ROUND1 x <= 100)%Q.
Proof.
  intros H0 H100. unfold ROUND1, round_half_away.
  assert (Hx10 : (0 <= x * 10)%Q) by lra.
  apply Qltb_ge in Hx10. rewrite Hx10.
  pose proof (Qfloor_resp_le (1 # 2) (x * 10 + (1 # 2)) ltac:(lra)) as Hlo.
  pose proof (Qfloor_resp_le (x * 10 + (1 # 2)) (2001 # 2) ltac:(lra)) as Hhi.
  change (Qfloor (1 # 2)) with 0%Z in Hlo.
  change (Qfloor (2001 # 2)) with 1000%Z in Hhi.
  set (n := Qfloor (x * 10 + (1 # 2))) in *.
  rewrite Qred_correct. unfold Qle. simpl. lia.
Qed.

Lemma percent1_range (num den : Z) :
  (0 <= num <= den)%Z ->
  match percent1 num (NULLIF den 0) with
  | Some r => (0 <= r)%Q /\ (r <= 100)%Q /\ (0 < den)%Z
  | None => den = 0%Z
  end.
Proof.
  intros [Hn Hd]. unfold percent1, NULLIF.
  destruct (Z.eqb_spec den 0) as [E | E]; [exact E |].
  assert (Hpos : (0 < den)%Z) by lia.
  assert (HposQ : (0 < inject_Z den)%Q)
    by (change 0%Q with (inject_Z 0); now rewrite <- Zlt_Qlt).
  assert (HnQ : (0 <= inject_Z num)%Q)
    by (change 0%Q with (inject_Z 0); now rewrite <- Zle_Qle).
  assert (HleQ : (inject_Z num <= inject_Z den)%Q) by now rewrite <- Zle_Qle.
  destruct (ROUND1_percent_range (100 * inject_Z num / inject_Z den)) as [A B].
  - apply Qle_shift_div_l; [exact HposQ | lra].
  - apply Qle_shift_div_r; [exact HposQ | lra].
  - auto.
Qed.

(** X3. Whatever the table holds, the CSAT rate and the fast-response
    percentage of the summary are either NULL or between 0 and 100; the
    CSAT rate is NULL exactly when no ticket is rated good or bad, the
    fast-response percentage exactly when the table is empty. *)
Theorem summary_percentages_in_range (current_date : Z) (T : list Ticket.t) :
  let st := sql_current_stats current_date T in
  match Stats.csat_rate st with
  | Some r => (0 <= r)%Q /\ (r <= 100)%Q /\ (0 < COUNTIF is_rated T)%Z
  | None => COUNTIF is_rated T = 0%Z
  end
  /\ match Stats.fast_response_pct st with
     | Some r => (0 <= r)%Q /\ (r <= 100)%Q /\ T <> []
     | None => T = []
     end.
Proof.
  cbv zeta. unfold sql_current_stats, sql_csat_rate.
  cbn [Stats.csat_rate Stats.fast_response_pct]. split.
  - apply percent1_range. split; [apply COUNTIF_nonneg |].
    rewrite COUNTIF_rated. pose proof (COUNTIF_nonneg is_bad T). lia.
  - pose proof (percent1_range (COUNTIF Ticket.first_response_under_1hr T)
                  (COUNT T)
                  (conj (COUNTIF_nonneg _ T) (COUNTIF_le_COUNT _ T))) as H.
    destruct (percent1 _ _) as [r|].
    + destruct H as (A & B & C). repeat split; try assumption.
      intros ->. unfold COUNT in C. simpl in C. lia.
    + unfold COUNT in H. destruct T; [reflexivity | simpl in H; lia].
Qed.

(** X4. The same-day percentage divides two independent counts.  When every
    ticket flagged as resolved the same day is also flagged as resolved, it
    is NULL (no resolved ticket) or between 0 and 100. *)
Theorem same_day_pct_in_range (current_date : Z) (T : list Ticket.t)
    (Hflags : forall r, In r T ->
                Ticket.resolved_same_day r = true ->
                Ticket.is_resolved r = true) :
  match Stats.same_day_pct (sql_current_stats current_date T) with
  | Some r => (0 <= r)%Q /\ (r <= 100)%Q
  | None => COUNTIF Ticket.is_resolved T = 0%Z
  end.
Proof.
  unfold sql_current_stats. cbn [Stats.same_day_pct].
  pose proof (percent1_range (COUNTIF Ticket.resolved_same_day T)
                (COUNTIF Ticket.is_resolved T)
                (conj (COUNTIF_nonneg _ T) (COUNTIF_mono _ _ T Hflags))) as H.
  destruct (percent1 _ _) as [r|]; [| exact H].
  destruct H as (A & B & _). now split.
Qed.

Lemma same_day_pct_in_range_witness :
  Stats.same_day_pct (sql_current_stats 10 sample_tickets) = Some 50%Q
  /\ match Stats.same_day_pct (sql_current_stats 10 sample_tickets) with
     | Some r => (0 <= r)%Q /\ (r <= 100)%Q
     | None => COUNTIF Ticket.is_resolved sample_tickets = 0%Z
     end.
Proof.
  split; [reflexivity |].
  apply (same_day_pct_in_range 10 sample_tickets).
  intros r [<- | [<- | [<- | []]]]; simpl; congruence.
Defined.

Lemma COUNTIF_disjoint {A : Type} (p q : A -> bool) (rows : list A) :
  (forall r, p r = true -> q r = false) ->
  (COUNTIF p rows + COUNTIF q rows <= COUNT rows)%Z.
Proof.
  intros Hpq. induction rows as [|r rows IH]; [reflexivity |].
  rewrite !COUNTIF_cons. unfold COUNT in *. simpl length.
  destruct (p r) eqn:Hp; [rewrite (Hpq r Hp) | destruct (q r)]; lia.
Qed.

Lemma AVG_null_iff (T : list Ticket.t) :
  AVG (map Ticket.resolution_minutes_business T) = None
  <-> forall r, In r T -> Ticket.resolution_minutes_business r = None.
Proof.
  unfold AVG. induction T as [|r T IH]; simpl.
  - split; [intros _ r [] | reflexivity].
  - destruct (Ticket.resolution_minutes_business r) as [m|] eqn:Em; simpl.
    + split; [discriminate |]. intros H.
      specialize (H r (or_introl eq_refl)). congruence.
    + rewrite IH. split.
      * intros H x [<- | Hx]; [exact Em | now apply H].
      * intros H x Hx. apply H. now right.
Qed.

(** X5. The counts of the summary are consistent: the backlog is between 0
    and the total, today's and yesterday's tickets are disjoint parts of the
    table, so the delta of the fifth KPI card is at most the total in
    absolute value; the average resolution time is NULL exactly when no
    ticket has one. *)
Theorem summary_counts_consistent (current_date : Z) (T : list Ticket.t) :
  let st := sql_current_stats current_date T in
  Stats.total_tickets st = Z.of_nat (length T)
  /\ (0 <= Stats.backlog st <= Stats.total_tickets st)%Z
  /\ (0 <= Stats.today_tickets st)%Z
  /\ (0 <= Stats.yesterday_tickets st)%Z
  /\ (Stats.today_tickets st + Stats.yesterday_tickets st
      <= Stats.total_tickets st)%Z
  /\ (Z.abs (today_delta st) <= Stats.total_tickets st)%Z
  /\ (Stats.avg_resolution_hours st = None
      <-> forall r, In r T -> Ticket.resolution_minutes_business r = None).
Proof.
  cbv zeta. unfold today_delta, sql_current_stats.
  cbn [Stats.total_tickets Stats.backlog Stats.today_tickets
       Stats.yesterday_tickets Stats.avg_resolution_hours].
  set (today := fun r : Ticket.t => (Ticket.created_at r =? current_date)%Z).
  set (yesterday :=
         fun r : Ticket.t => (Ticket.created_at r =? current_date - 1)%Z).
  pose proof (COUNTIF_nonneg in_backlog T).
  pose proof (COUNTIF_le_COUNT in_backlog T).
  pose proof (COUNTIF_nonneg today T).
  pose proof (COUNTIF_nonneg yesterday T).
  assert (Hdis : (COUNTIF today T + COUNTIF yesterday T <= COUNT T)%Z).
  { apply COUNTIF_disjoint. intros r. unfold today, yesterday.
    rewrite Z.eqb_eq, Z.eqb_neq. lia. }
  repeat split; try lia; try reflexivity.
  - intros Havg. apply AVG_null_iff.
    destruct (AVG _); [discriminate Havg | reflexivity].
  - intros Hall. apply AVG_null_iff in Hall. now rewrite Hall.
Qed.

(** ** The session: client and result cache *)

Lemma store_other (s : Session) (k k' : QueryKey) (now : Z) (v : ResultT k) :
  k <> k' -> data_cache (store s k now v) k' = data_cache s k'.
Proof.
  intros Hne. unfold store. cbn [data_cache].
  destruct (QueryKey_eq_dec k k'); [contradiction | reflexivity].
Qed.

Lemma producer_client (env : Env) (k : QueryKey) (now : Z) (s : Session)
    (c : Client) :
  bq_client s = Some c -> bq_client (fst (producer env k now s)) = Some c.
Proof.
  intros Hc. unfold producer, bind, record_call, get_bq_client, lift.
  cbn [bq_client]. rewrite Hc.
  destruct (run_query env c k now) as [e|frame]; [reflexivity |].
  destruct (finish k frame); reflexivity.
Qed.

(** The two ways a call of a loader can go. *)
Lemma load_cases (env : Env) (k : QueryKey) (now : Z) (s : Session) :
  (exists t0 v, data_cache s k = Some (t0, v) /\ (now - t0 < 300)%Z
                /\ load env k now s = (s, Return v))
  \/ ((forall t0 v, data_cache s k = Some (t0, v) -> (300 <= now - t0)%Z)
      /\ load env k now s =
           match producer env k now s with
           | (s', Raise e) => (s', Raise e)
           | (s', Return v) => (store s' k now v, Return v)
           end).
Proof.
  rewrite load_unfold. unfold cached.
  destruct (data_cache s k) as [[t0 v]|] eqn:E.
  - destruct (Z.ltb_spec (now - t0) 300) as [Hl | Hl].
    + left. exists t0, v. auto.
    + right. split; [| reflexivity]. intros t1 v1 [= <- _]. exact Hl.
  - right. split; [discriminate | reflexivity].
Qed.

Lemma load_other_entry (env : Env) (k k' : QueryKey) (now : Z) (s : Session) :
  k <> k' -> data_cache (fst (load env k now s)) k' = data_cache s k'.
Proof.
  intros Hne.
  destruct (load_cases env k now s) as [(t0 & v & _ & _ & ->) | [_ ->]];
    [reflexivity |].
  destruct (producer_effect env k now s) as [_ Hd].
  destruct (producer env k now s) as [s' [e|v]]; cbn [fst] in *.
  - now rewrite Hd.
  - now rewrite store_other, Hd.
Qed.

Lemma load_invocations (env : Env) (k k' : QueryKey) (now : Z) (s : Session) :
  invocations k' (fst (load env k now s))
  = if QueryKey_eq_dec k k'
    then match data_cache s k with
         | Some (t0, _) =>
             if (now - t0 <? 300)%Z then invocations k' s
             else S (invocations k' s)
         | None => S (invocations k' s)
         end
    else invocations k' s.
Proof.
  assert (Hmiss :
    invocations k'
      (fst (match producer env k now s with
            | (s', Raise e) => (s', Raise e)
            | (s', Return v) => (store s' k now v, Return v)
            end))
    = if QueryKey_eq_dec k k' then S (invocations k' s) else invocations k' s).
  { destruct (producer_effect env k now s) as [Hc _].
    assert (Hinv : forall s', producer_calls s' = (k, now) :: producer_calls s ->
              invocations k' s'
              = if QueryKey_eq_dec k k' then S (invocations k' s)
                else invocations k' s).
    { intros s' Hs'. unfold invocations. rewrite Hs'. simpl.
      destruct (QueryKey_eq_dec k k'); reflexivity. }
    destruct (producer env k now s) as [s' [e|v]]; cbn [fst] in *;
      now apply Hinv. }
  rewrite load_unfold. unfold cached.
  destruct (data_cache s k) as [[t0 v]|].
  - destruct (now - t0 <? 300)%Z; [| exact Hmiss].
    cbn [fst]. destruct (QueryKey_eq_dec k k'); reflexivity.
  - exact Hmiss.
Qed.

(** X6. Loading one table does not touch the others: the cache entry and
    the number of query runs of every other loader stay as they were, and a
    client that was built stays in place. *)
Theorem load_leaves_other_keys (env : Env) (k k' : QueryKey) (now : Z)
    (s : Session) (Hne : k <> k') :
  data_cache (fst (load env k now s)) k' = data_cache s k'
  /\ invocations k' (fst (load env k now s)) = invocations k' s
  /\ (forall c, bq_client s = Some c ->
                bq_client (fst (load env k now s)) = Some c).
Proof.
  split; [now apply load_other_entry |]. split.
  - rewrite load_invocations.
    destruct (QueryKey_eq_dec k k'); [contradiction | reflexivity].
  - intros c Hc.
    destruct (load_cases env k now s) as [(t0 & v & _ & _ & ->) | [_ ->]];
      [exact Hc |].
    pose proof (producer_client env k now s c Hc) as Hp.
    destruct (producer env k now s) as [s' [e|v]]; exact Hp.
Qed.

Lemma load_leaves_other_keys_witness :
  TagAnalysis <> DailyMetrics
  /\ data_cache
       (fst (load (sample_env []) TagAnalysis 7
               (fst (load (sample_env []) DailyMetrics 0 empty_session))))
       DailyMetrics
     = Some (0%Z, []).
Proof.
  split; [discriminate |].
  destruct (load_leaves_other_keys (sample_env []) TagAnalysis DailyMetrics 7
              (fst (load (sample_env []) DailyMetrics 0 empty_session)))
    as [H _]; [discriminate |].
  rewrite H. reflexivity.
Defined.

Lemma load_raise_keeps_cache (env : Env) (k : QueryKey) (now : Z)
    (s : Session) (e : Exception) :
  snd (load env k now s) = Raise e ->
  forall k', data_cache (fst (load env k now s)) k' = data_cache s k'.
Proof.
  intros Hraise k'.
  destruct (load_cases env k now s) as [(t0 & v & _ & _ & Hl) | [_ Hl]];
    rewrite Hl in *; [reflexivity |].
  destruct (producer_effect env k now s) as [_ Hd].
  destruct (producer env k now s) as [s' [e'|v]]; cbn [fst snd] in *;
    [now rewrite Hd | discriminate Hraise].
Qed.

(** X7. A failed load is not cached.  When a loader raises, no cache entry
    has changed, the entry of that loader was not live, and the body of the
    loader (fetch the client, then run the query) has run exactly once for
    the call; the next call runs the body again rather than repeating the
    error. *)
Theorem failed_load_is_not_cached (env : Env) (k : QueryKey) (now : Z)
    (s : Session) (e : Exception)
    (Hraise : snd (load env k now s) = Raise e) :
  (forall k', data_cache (fst (load env k now s)) k' = data_cache s k')
  /\ (forall t0 v, data_cache s k = Some (t0, v) -> (300 <= now - t0)%Z)
  /\ invocations k (fst (load env k now s)) = S (invocations k s)
  /\ (forall env' now',
        (now <= now')%Z ->
        invocations k (fst (load env' k now' (fst (load env k now s))))
        = S (S (invocations k s))).
Proof.
  destruct (load_cases env k now s) as [(t0 & v & _ & _ & Hl) | [Hmiss Hl]].
  { rewrite Hl in Hraise. discriminate Hraise. }
  pose proof (load_raise_keeps_cache env k now s e Hraise) as Hkeep.
  assert (Hone : invocations k (fst (load env k now s)) = S (invocations k s)).
  { rewrite load_invocations.
    destruct (QueryKey_eq_dec k k); [| congruence].
    destruct (data_cache s k) as [[t0 v]|] eqn:E; [| reflexivity].
    specialize (Hmiss t0 v eq_refl).
    destruct (Z.ltb_spec (now - t0) 300); [lia | reflexivity]. }
  repeat split; try assumption.
  intros env' now' Hle. rewrite load_invocations, Hkeep, Hone.
  destruct (QueryKey_eq_dec k k); [| congruence].
  destruct (data_cache s k) as [[t0 v]|] eqn:E; [| reflexivity].
  specialize (Hmiss t0 v eq_refl).
  destruct (Z.ltb_spec (now' - t0) 300); [lia | reflexivity].
Qed.

Lemma failed_load_is_not_cached_witness :
  snd (load (sample_env [TagAnalysis]) TagAnalysis 0 empty_session)
    = Raise "403 Access Denied"
  /\ invocations TagAnalysis
       (fst (load (sample_env []) TagAnalysis 1
               (fst (load (sample_env [TagAnalysis]) TagAnalysis 0
                       empty_session))))
     = 2%nat.
Proof.
  split; [reflexivity |].
  destruct (failed_load_is_not_cached (sample_env [TagAnalysis]) TagAnalysis 0
              empty_session "403 Access Denied" eq_refl)
    as (_ & _ & _ & H).
  apply (H (sample_env []) 1%Z). lia.
Defined.

(** X8. The warehouse client is built lazily and once.  When
    [get_bq_client] returns a client it is kept in the session, and every
    later call returns that client without building one, whatever the
    credentials or the constructor would give by then; when building fails
    nothing is kept, so the next call tries again. *)
Theorem get_bq_client_builds_once (env : Env) (s : Session) :
  match get_bq_client env s with
  | (s', Return c) =>
      bq_client s' = Some c
      /\ (forall env', get_bq_client env' s' = (s', Return c))
      /\ (forall k, data_cache s' k = data_cache s k)
      /\ producer_calls s' = producer_calls s
  | (s', Raise e) => s' = s /\ bq_client s = None
  end.
Proof.
  unfold get_bq_client. destruct (bq_client s) as [c|] eqn:Hc.
  - split; [exact Hc |]. split; [| split; reflexivity].
    intros env'. unfold get_bq_client. now rewrite Hc.
  - destruct (bigquery_Client env _ _) as [e|c]; [now split |].
    split; [reflexivity |]. split; [| split; reflexivity].
    intros env'. reflexivity.
Qed.

(** ** Render passes and the cache *)

Lemma load_all_state (env : Env) (now : Z) (s : Session) :
  fst (load_all env now s) = fst (run_loaders env now load_order s).
Proof.
  unfold load_all, load_order, run_loaders, load_current_stats,
    load_daily_metrics, load_agent_performance, load_tag_analysis,
    load_hourly_heatmap, bind, ret.
  destruct (load env CurrentStats now s) as [s1 [e1|v1]]; [reflexivity |].
  destruct (load env DailyMetrics now s1) as [s2 [e2|v2]]; [reflexivity |].
  destruct (load env AgentPerformance now s2) as [s3 [e3|v3]]; [reflexivity |].
  destruct (load env TagAnalysis now s3) as [s4 [e4|v4]]; [reflexivity |].
  destruct (load env HourlyHeatmap now s4) as [s5 [e5|v5]]; reflexivity.
Qed.

Lemma main_state (env : Env) (now : Z) (s : Session) :
  fst (main env now s) = fst (load_all env now s).
Proof.
  unfold main. destruct (load_all env now s) as [s' [e|d]]; reflexivity.
Qed.

Lemma load_invocations_bound (env : Env) (a k : QueryKey) (now : Z)
    (s : Session) :
  (invocations k s <= invocations k (fst (load env a now s))
   <= invocations k s + (if QueryKey_eq_dec a k then 1 else 0))%nat.
Proof.
  rewrite load_invocations. destruct (QueryKey_eq_dec a k); [| lia].
  destruct (data_cache s a) as [[t0 v]|]; [| lia].
  destruct (now - t0 <? 300)%Z; lia.
Qed.

Lemma run_loaders_invocations (env : Env) (now : Z) (k : QueryKey)
    (ks : list QueryKey) (s : Session) :
  List.NoDup ks ->
  (invocations k s <= invocations k (fst (run_loaders env now ks s))
   <= invocations k s + (if in_dec QueryKey_eq_dec k ks then 1 else 0))%nat.
Proof.
  revert s. induction ks as [|a ks IH]; intros s Hnd; cbn [run_loaders].
  - unfold ret. cbn [fst]. destruct (in_dec _ _ _); lia.
  - inversion Hnd as [|? ? Hnotin Hnd']; subst.
    pose proof (load_invocations_bound env a k now s) as Ha.
    unfold bind.
    destruct (load env a now s) as [s1 [e|v]]; cbn [fst] in *.
    + destruct (in_dec QueryKey_eq_dec k (a :: ks)) as [Hin | Hout];
        destruct (QueryKey_eq_dec a k) as [-> | Hne]; try lia;
        exfalso; cbn [In] in *; tauto.
    + specialize (IH s1 Hnd').
      destruct (in_dec QueryKey_eq_dec k (a :: ks)) as [Hin | Hout];
        destruct (in_dec QueryKey_eq_dec k ks) as [Hin' | Hout'];
        destruct (QueryKey_eq_dec a k) as [-> | Hne]; try lia;
        exfalso; cbn [In] in *; intuition congruence.
Qed.

(** X9. A render pass runs each query at most once, and it never forgets a
    run: for every loader the number of query runs after [main] is the
    number before or one more. *)
Theorem render_runs_each_query_at_most_once (env : Env) (now : Z)
    (s : Session) (k : QueryKey) :
  (invocations k s <= invocations k (fst (main env now s))
   <= S (invocations k s))%nat.
Proof.
  rewrite main_state, load_all_state.
  assert (Hnd : List.NoDup load_order).
  { unfold load_order. repeat constructor; simpl; intuition discriminate. }
  pose proof (run_loaders_invocations env now k load_order s Hnd) as H.
  destruct (in_dec QueryKey_eq_dec k load_order); lia.
Qed.

Lemma load_fresh_entry (env : Env) (k : QueryKey) (now : Z) (s s' : Session)
    (v : ResultT k) :
  (forall t0 v0, data_cache s k = Some (t0, v0) -> (300 <= now - t0)%Z) ->
  load env k now s = (s', Return v) ->
  data_cache s' k = Some (now, v).
Proof.
  intros Hmiss Hl. destruct (cached_miss env k now s Hmiss) as [_ H].
  rewrite Hl in H. now apply H.
Qed.

Lemma load_keeps_entry (env : Env) (k : QueryKey) (now : Z)
    (s s' : Session) (r : result (ResultT k)) :
  load env k now s = (s', r) ->
  forall k', k <> k' -> data_cache s' k' = data_cache s k'.
Proof.
  intros Hl k' Hne. pose proof (load_other_entry env k k' now s Hne) as H.
  now rewrite Hl in H.
Qed.

(** X10. A second render within the TTL is served from the cache.  After a
    pass at [now1] that had to load all five tables and succeeded, a pass
    less than 300 seconds later renders the same tables (the same widgets
    up to the footer's time, or the same uncaught exception) and leaves the
    session as it is: no query runs and no client is needed, whatever the
    warehouse would answer by then. *)
Theorem second_render_within_ttl (env env' : Env) (now1 now2 : Z)
    (s s1 : Session) (d : Loaded)
    (Hfresh : no_live_entry s now1)
    (Hfirst : load_all env now1 s = (s1, Return d))
    (Hsoon : (now2 - now1 < 300)%Z) :
  load_all env' now2 s1 = (s1, Return d)
  /\ main env' now2 s1 =
       (s1, st_markdown header_html
            :: dashboard d
            ++ (if died (dashboard d) then []
                else [st_markdown (footer_html (strftime_now env' now2))]))
  /\ snd (main env now1 s) =
       st_markdown header_html
       :: dashboard d
       ++ (if died (dashboard d) then []
           else [st_markdown (footer_html (strftime_now env now1))]).
Proof.
  assert (Hall : load_all env' now2 s1 = (s1, Return d)).
  { unfold load_all, load_current_stats, load_daily_metrics,
      load_agent_performance, load_tag_analysis, load_hourly_heatmap,
      bind, ret in Hfirst.
    destruct (load env CurrentStats now1 s) as [sa [e|va]] eqn:Ea;
      [discriminate Hfirst |].
    destruct (load env DailyMetrics now1 sa) as [sb [e|vb]] eqn:Eb;
      [discriminate Hfirst |].
    destruct (load env AgentPerformance now1 sb) as [sc [e|vc]] eqn:Ec;
      [discriminate Hfirst |].
    destruct (load env TagAnalysis now1 sc) as [sd [e|vd]] eqn:Ed;
      [discriminate Hfirst |].
    destruct (load env HourlyHeatmap now1 sd) as [se [e|ve]] eqn:Ee;
      [discriminate Hfirst |].
    injection Hfirst as <- <-.
    assert (Ha : data_cache se CurrentStats = Some (now1, va)).
    { rewrite (load_keeps_entry _ _ _ _ _ _ Ee CurrentStats),
        (load_keeps_entry _ _ _ _ _ _ Ed CurrentStats),
        (load_keeps_entry _ _ _ _ _ _ Ec CurrentStats),
        (load_keeps_entry _ _ _ _ _ _ Eb CurrentStats) by discriminate.
      apply (load_fresh_entry env CurrentStats now1 s sa va); [| exact Ea].
      apply Hfresh. }
    assert (Hb : data_cache se DailyMetrics = Some (now1, vb)).
    { rewrite (load_keeps_entry _ _ _ _ _ _ Ee DailyMetrics),
        (load_keeps_entry _ _ _ _ _ _ Ed DailyMetrics),
        (load_keeps_entry _ _ _ _ _ _ Ec DailyMetrics) by discriminate.
      apply (load_fresh_entry env DailyMetrics now1 sa sb vb); [| exact Eb].
      rewrite (load_keeps_entry _ _ _ _ _ _ Ea DailyMetrics) by discriminate.
      apply Hfresh. }
    assert (Hc : data_cache se AgentPerformance = Some (now1, vc)).
    { rewrite (load_keeps_entry _ _ _ _ _ _ Ee AgentPerformance),
        (load_keeps_entry _ _ _ _ _ _ Ed AgentPerformance) by discriminate.
      apply (load_fresh_entry env AgentPerformance now1 sb sc vc);
        [| exact Ec].
      rewrite (load_keeps_entry _ _ _ _ _ _ Eb AgentPerformance),
        (load_keeps_entry _ _ _ _ _ _ Ea AgentPerformance) by discriminate.
      apply Hfresh. }
    assert (Hd : data_cache se TagAnalysis = Some (now1, vd)).
    { rewrite (load_keeps_entry _ _ _ _ _ _ Ee TagAnalysis) by discriminate.
      apply (load_fresh_entry env TagAnalysis now1 sc sd vd); [| exact Ed].
      rewrite (load_keeps_entry _ _ _ _ _ _ Ec TagAnalysis),
        (load_keeps_entry _ _ _ _ _ _ Eb TagAnalysis),
        (load_keeps_entry _ _ _ _ _ _ Ea TagAnalysis) by discriminate.
      apply Hfresh. }
    assert (He : data_cache se HourlyHeatmap = Some (now1, ve)).
    { apply (load_fresh_entry env HourlyHeatmap now1 sd se ve); [| exact Ee].
      rewrite (load_keeps_entry _ _ _ _ _ _ Ed HourlyHeatmap),
        (load_keeps_entry _ _ _ _ _ _ Ec HourlyHeatmap),
        (load_keeps_entry _ _ _ _ _ _ Eb HourlyHeatmap),
        (load_keeps_entry _ _ _ _ _ _ Ea HourlyHeatmap) by discriminate.
      apply Hfresh. }
    unfold load_all, load_current_stats, load_daily_metrics,
      load_agent_performance, load_tag_analysis, load_hourly_heatmap,
      bind, ret.
    rewrite (cached_hit env' CurrentStats now2 now1 se va Ha Hsoon),
      (cached_hit env' DailyMetrics now2 now1 se vb Hb Hsoon),
      (cached_hit env' AgentPerformance now2 now1 se vc Hc Hsoon),
      (cached_hit env' TagAnalysis now2 now1 se vd Hd Hsoon),
      (cached_hit env' HourlyHeatmap now2 now1 se ve He Hsoon).
    reflexivity. }
  split; [exact Hall |]. unfold main. rewrite Hall, Hfirst.
  split; reflexivity.
Qed.

Lemma second_render_within_ttl_witness :
  no_live_entry empty_session 0
  /\ snd (load_all (sample_env []) 0 empty_session)
     = Return {| stats := sample_stats 120 100; daily_df := [];
                 agent_df := []; tag_df := []; heatmap_df := [] |}
  /\ fst (main (sample_env load_order) 299
            (fst (load_all (sample_env []) 0 empty_session)))
     = fst (load_all (sample_env []) 0 empty_session)
  /\ errors (snd (main (sample_env load_order) 299
                    (fst (load_all (sample_env []) 0 empty_session))))
     = [].
Proof.
  assert (Hfresh : no_live_entry empty_session 0)
    by (intros k t0 v0 H; discriminate H).
  split; [exact Hfresh |]. split; [reflexivity |].
  destruct (second_render_within_ttl (sample_env []) (sample_env load_order)
              0 299 empty_session
              (fst (load_all (sample_env []) 0 empty_session))
              {| stats := sample_stats 120 100; daily_df := [];
                 agent_df := []; tag_df := []; heatmap_df := [] |}
              Hfresh eq_refl eq_refl) as (_ & Hmain & _).
  rewrite Hmain. split; reflexivity.
Defined.

Lemma first_load_raise_aborts (env : Env) (now : Z) (s : Session)
    (e : Exception) :
  snd (load env CurrentStats now s) = Raise e ->
  main env now s =
    (fst (load env CurrentStats now s),
     [st_markdown header_html; st_error ("Error loading data: " +:+ e)]).
Proof.
  intros Hl.
  pose proof (run_loaders_raise env now []
                [DailyMetrics; AgentPerformance; TagAnalysis; HourlyHeatmap]
                CurrentStats e s eq_refl Hl) as Hrun.
  apply load_all_raise in Hrun. unfold main. now rewrite Hrun.
Qed.

(** X11. An empty summary frame aborts the pass.  [load_current_stats]
    takes the first row of the frame; when the entry is not live and the
    query returns no row, the loader raises, nothing is cached for it, and
    [main] shows the error box instead of the dashboard. *)
Theorem empty_summary_frame_aborts (env : Env) (now : Z) (s : Session)
    (c : Client)
    (Hmiss : forall t0 v0,
        data_cache s CurrentStats = Some (t0, v0) -> (300 <= now - t0)%Z)
    (Hclient : snd (get_bq_client env s) = Return c)
    (Hquery : run_query env c CurrentStats now = Return []) :
  snd (load_current_stats env now s)
    = Raise "single positional indexer is out-of-bounds"
  /\ data_cache (fst (main env now s)) CurrentStats
     = data_cache s CurrentStats
  /\ snd (main env now s) =
       [ st_markdown header_html;
         st_error
           "Error loading data: single positional indexer is out-of-bounds" ].
Proof.
  assert (Hp : snd (producer env CurrentStats now s)
               = Raise "single positional indexer is out-of-bounds").
  { unfold producer, bind, record_call, lift.
    unfold get_bq_client in *. cbn [bq_client] in *.
    destruct (bq_client s) as [c0|].
    - cbn [snd] in Hclient. injection Hclient as ->. now rewrite Hquery.
    - destruct (bigquery_Client env _ _) as [e|c0];
        cbn [snd] in Hclient; [discriminate Hclient |].
      injection Hclient as ->. now rewrite Hquery. }
  assert (Hl : snd (load env CurrentStats now s)
               = Raise "single positional indexer is out-of-bounds").
  { destruct (load_cases env CurrentStats now s)
      as [(t0 & v & Hsome & Hlive & _) | [_ ->]].
    - specialize (Hmiss t0 v Hsome). lia.
    - destruct (producer env CurrentStats now s) as [s' [e|v]];
        cbn [snd] in *; [exact Hp | discriminate Hp]. }
  split; [exact Hl |].
  pose proof (first_load_raise_aborts env now s _ Hl) as Hmain.
  rewrite Hmain. cbn [fst snd]. split; [| reflexivity].
  apply (load_raise_keeps_cache env CurrentStats now s _ Hl).
Qed.

Lemma empty_summary_frame_aborts_witness :
  run_query empty_summary_env
    {| project := "artful-logic-475116-p1";
       credentials := Some "service-account.json" |} CurrentStats 0
    = Return []
  /\ snd (main empty_summary_env 0 empty_session) =
       [ st_markdown header_html;
         st_error
           "Error loading data: single positional indexer is out-of-bounds" ].
Proof.
  split; [reflexivity |].
  apply (empty_summary_frame_aborts empty_summary_env 0 empty_session
           {| project := "artful-logic-475116-p1";
              credentials := Some "service-account.json" |}).
  - intros t0 v0 H. discriminate H.
  - reflexivity.
  - reflexivity.
Defined.

(** ** The heatmap: nothing lost, nothing counted twice *)

Lemma sum_Z_app (l1 l2 : list Z) : sum_Z (l1 ++ l2) = (sum_Z l1 + sum_Z l2)%Z.
Proof. unfold sum_Z. induction l1 as [|x l1 IH]; simpl; lia. Qed.

Lemma sum_Z_map_add {A : Type} (f g : A -> Z) (l : list A) :
  sum_Z (map (fun x => (f x + g x)%Z) l)
  = (sum_Z (map f l) + sum_Z (map g l))%Z.
Proof. unfold sum_Z. induction l as [|x l IH]; simpl; lia. Qed.

Lemma sum_Z_map_ext {A : Type} (f g : A -> Z) (l : list A) :
  (forall x, In x l -> f x = g x) -> sum_Z (map f l) = sum_Z (map g l).
Proof. intros H. f_equal. now apply List.map_ext_in. Qed.

Lemma sum_Z_map_zero {A : Type} (l : list A) :
  sum_Z (map (fun _ => 0%Z) l) = 0%Z.
Proof. unfold sum_Z. induction l as [|x l IH]; simpl; lia. Qed.

Lemma sum_Z_perm (l1 l2 : list Z) :
  Permutation l1 l2 -> sum_Z l1 = sum_Z l2.
Proof.
  unfold sum_Z. induction 1; simpl; try lia.
Qed.

(** Summing an indicator of [a] over a list without duplicates. *)
Lemma sum_Z_indicator {A : Type} `{EqDecision A} (a : A) (c : Z) (l : list A) :
  NoDup l ->
  sum_Z (map (fun x => if decide (a = x) then c else 0%Z) l)
  = if decide (a ∈ l) then c else 0%Z.
Proof.
  induction 1 as [|x l Hx Hnd IH].
  - reflexivity.
  - change (sum_Z (map (fun y => if decide (a = y) then c else 0%Z) (x :: l)))
      with ((if decide (a = x) then c else 0)
            + sum_Z (map (fun y => if decide (a = y) then c else 0%Z) l))%Z.
    rewrite IH.
    destruct (decide (a = x)) as [<- | Hne].
    + destruct (decide (a ∈ l)); [contradiction |].
      destruct (decide (a ∈ a :: l)) as [_ | Hn]; [lia |].
      exfalso. apply Hn. apply list_elem_of_here.
    + destruct (decide (a ∈ l)) as [Hin | Hout];
        destruct (decide (a ∈ x :: l)) as [Hin' | Hout']; try lia.
      * exfalso. apply Hout'. now apply list_elem_of_further.
      * exfalso. apply list_elem_of_In in Hin'. destruct Hin' as [-> | Hi];
          [congruence |]. apply Hout. now apply list_elem_of_In.
Qed.

Lemma cell_sum_default (df : list Heat.t) (d : string) (h : Z) :
  default 0%Z (cell_sum df d h)
  = sum_Z (map Heat.ticket_count
             (List.filter
                (fun r => String.eqb (Heat.created_day_of_week r) d
                          && (Heat.created_hour r =? h)%Z) df)).
Proof. unfold cell_sum. destruct (List.filter _ df); reflexivity. Qed.

Lemma cell_sum_cons (r : Heat.t) (df : list Heat.t) (d : string) (h : Z) :
  default 0%Z (cell_sum (r :: df) d h)
  = ((if decide (Heat.created_day_of_week r = d)
      then if decide (Heat.created_hour r = h)
           then Heat.ticket_count r else 0
      else 0)
     + default 0%Z (cell_sum df d h))%Z.
Proof.
  rewrite !cell_sum_default. cbn [List.filter].
  destruct (String.eqb_spec (Heat.created_day_of_week r) d) as [Hd | Hd];
    destruct (Z.eqb_spec (Heat.created_hour r) h) as [Hh | Hh];
    destruct (decide (Heat.created_day_of_week r = d));
    destruct (decide (Heat.created_hour r = h));
    try contradiction; cbn [andb map]; unfold sum_Z; simpl; lia.
Qed.

Lemma grid_total (df : list Heat.t) (days : list string) (hours : list Z) :
  NoDup days -> NoDup hours ->
  sum_Z (map (fun d =>
                sum_Z (map (fun h => default 0%Z (cell_sum df d h)) hours))
             days)
  = sum_Z (map Heat.ticket_count
             (List.filter
                (fun r => bool_decide (Heat.created_day_of_week r ∈ days)
                          && bool_decide (Heat.created_hour r ∈ hours)) df)).
Proof.
  intros Hd Hh. induction df as [|r df IH].
  - cbn [List.filter map].
    transitivity (sum_Z (map (fun _ : string => 0%Z) days));
      [| apply sum_Z_map_zero].
    apply sum_Z_map_ext. intros d _. apply sum_Z_map_zero.
  - rewrite (sum_Z_map_ext _
      (fun d =>
         ((if decide (Heat.created_day_of_week r = d)
           then if decide (Heat.created_hour r ∈ hours)
                then Heat.ticket_count r else 0
           else 0)
          + sum_Z (map (fun h => default 0%Z (cell_sum df d h)) hours))%Z)).
    2:{ intros d _.
        rewrite (sum_Z_map_ext _ _ hours
                   (fun h _ => cell_sum_cons r df d h)).
        rewrite sum_Z_map_add. f_equal.
        destruct (decide (Heat.created_day_of_week r = d)).
        - now apply sum_Z_indicator.
        - apply sum_Z_map_zero. }
    rewrite sum_Z_map_add, IH.
    rewrite (sum_Z_indicator (Heat.created_day_of_week r)
               (if decide (Heat.created_hour r ∈ hours)
                then Heat.ticket_count r else 0%Z) days Hd).
    cbn [List.filter].
    destruct (decide (Heat.created_day_of_week r ∈ days)) as [Hi | Hi].
    + rewrite (bool_decide_eq_true_2 _ Hi).
      destruct (decide (Heat.created_hour r ∈ hours)) as [Hj | Hj].
      * rewrite (bool_decide_eq_true_2 _ Hj). reflexivity.
      * rewrite (bool_decide_eq_false_2 _ Hj). cbn [andb]. lia.
    + rewrite (bool_decide_eq_false_2 _ Hi). cbn [andb]. lia.
Qed.

Lemma filter_ext_in {A : Type} (p q : A -> bool) (l : list A) :
  (forall x, In x l -> p x = q x) -> List.filter p l = List.filter q l.
Proof.
  induction l as [|x l IH]; intros H; [reflexivity |].
  simpl. rewrite (H x (or_introl eq_refl)), IH; [reflexivity |].
  intros y Hy. apply H. now right.
Qed.

(** X12. The heatmap neither loses nor double-counts tickets: the cells of
    the matrix add up to the tickets of all rows whose day is one of the
    seven day names.  Rows with any other day label are left out of the
    matrix. *)
Theorem heatmap_conserves_tickets (heatmap_df : list Heat.t) :
  matrix_total (pivot_values (heatmap_pivot heatmap_df))
  = known_day_total heatmap_df.
Proof.
  unfold matrix_total, known_day_total.
  rewrite heatmap_pivot_values, List.map_map.
  rewrite (sum_Z_map_ext _
             (fun d => sum_Z (map (fun h => default 0%Z
                                             (cell_sum heatmap_df d h))
                                  (pivot_columns (heatmap_pivot heatmap_df))))).
  2:{ intros d _. now rewrite List.map_map. }
  assert (Hcols : pivot_columns (heatmap_pivot heatmap_df)
            = stable_sort Z.leb
                (remove_dups (map Heat.created_hour heatmap_df)))
    by reflexivity.
  rewrite grid_total.
  - f_equal. f_equal. apply filter_ext_in. intros r Hr.
    assert (Hin : Heat.created_hour r
                  ∈ pivot_columns (heatmap_pivot heatmap_df)).
    { rewrite Hcols. apply list_elem_of_In, sorted_dedup_In.
      now apply in_map. }
    rewrite (bool_decide_eq_true_2 _ Hin). apply andb_true_r.
  - unfold day_order. repeat constructor; rewrite ?list_elem_of_In;
      simpl; intuition discriminate.
  - rewrite Hcols, (stable_sort_perm Z.leb). apply NoDup_remove_dups.
Qed.

Lemma filter_perm {A : Type} (p : A -> bool) (l1 l2 : list A) :
  Permutation l1 l2 -> Permutation (List.filter p l1) (List.filter p l2).
Proof.
  induction 1 as [| x l1 l2 _ IH | x y l | l1 l2 l3 _ IH1 _ IH2]; simpl.
  - constructor.
  - destruct (p x); [now constructor | exact IH].
  - destruct (p x), (p y); try reflexivity. apply perm_swap.
  - now transitivity (List.filter p l2).
Qed.

Lemma cell_sum_perm (df1 df2 : list Heat.t) (d : string) (h : Z) :
  Permutation df1 df2 -> cell_sum df1 d h = cell_sum df2 d h.
Proof.
  intros Hp. unfold cell_sum.
  pose proof (filter_perm
                (fun r => String.eqb (Heat.created_day_of_week r) d
                          && (Heat.created_hour r =? h)%Z) _ _ Hp) as Hf.
  destruct (List.filter _ df1) as [|r1 l1] eqn:E1;
    destruct (List.filter _ df2) as [|r2 l2] eqn:E2.
  - reflexivity.
  - apply Permutation_nil in Hf. discriminate Hf.
  - symmetry in Hf. apply Permutation_nil in Hf. discriminate Hf.
  - f_equal. apply sum_Z_perm. now apply Permutation_map.
Qed.

Lemma sorted_dedup_perm (l1 l2 : list Z) :
  Permutation l1 l2 ->
  stable_sort Z.leb (remove_dups l1) = stable_sort Z.leb (remove_dups l2).
Proof.
  intros Hp.
  assert (Hs : forall l, StronglySorted Z.le (stable_sort Z.leb l)).
  { intros l. eapply StronglySorted_weaken; [| apply stable_sort_sorted].
    - intros a b H. apply Z.leb_le. exact H.
    - intros a b. rewrite !Z.leb_le. lia.
    - intros a b c. rewrite !Z.leb_le. lia. }
  apply (StronglySorted_unique Z.le); [apply Hs | apply Hs |].
  rewrite !stable_sort_perm.
  apply NoDup_Permutation; try apply NoDup_remove_dups.
  intros x. rewrite !elem_of_remove_dups. now rewrite Hp.
Qed.

(** X13. The heatmap does not depend on the order in which the warehouse
    returns the rows (the query has no ORDER BY): tables that are
    permutations of each other give the same pivot, hence the same chart. *)
Theorem heatmap_independent_of_row_order (df1 df2 : list Heat.t)
    (Hperm : Permutation df1 df2) :
  heatmap_pivot df1 = heatmap_pivot df2
  /\ fig_heatmap df1 = fig_heatmap df2.
Proof.
  assert (Hcols : pivot_columns (heatmap_pivot df1)
                  = pivot_columns (heatmap_pivot df2)).
  { change (stable_sort Z.leb (remove_dups (map Heat.created_hour df1))
            = stable_sort Z.leb (remove_dups (map Heat.created_hour df2))).
    apply sorted_dedup_perm. now apply Permutation_map. }
  assert (Hvals : pivot_values (heatmap_pivot df1)
                  = pivot_values (heatmap_pivot df2)).
  { rewrite !heatmap_pivot_values, Hcols.
    apply List.map_ext. intros d. apply List.map_ext. intros h.
    now apply cell_sum_perm. }
  assert (Heq : heatmap_pivot df1 = heatmap_pivot df2).
  { change (heatmap_pivot df1)
      with {| pivot_index := day_order;
              pivot_columns := pivot_columns (heatmap_pivot df1);
              pivot_values := pivot_values (heatmap_pivot df1) |}.
    change (heatmap_pivot df2)
      with {| pivot_index := day_order;
              pivot_columns := pivot_columns (heatmap_pivot df2);
              pivot_values := pivot_values (heatmap_pivot df2) |}.
    now rewrite Hcols, Hvals. }
  split; [exact Heq |]. unfold fig_heatmap. now rewrite Heq.
Qed.

Lemma heatmap_independent_of_row_order_witness :
  Permutation sample_heatmap (rev sample_heatmap)
  /\ heatmap_pivot sample_heatmap = heatmap_pivot (rev sample_heatmap).
Proof.
  split; [apply Permutation_rev |].
  apply (heatmap_independent_of_row_order sample_heatmap (rev sample_heatmap)).
  apply Permutation_rev.
Defined.

(** ** Trend charts *)

Lemma NoDup_map_inj {A B : Type} (f : A -> B) (l : list A) (x y : A) :
  NoDup (map f l) -> In x l -> In y l -> f x = f y -> x = y.
Proof.
  induction l as [|a l IH]; intros Hnd Hx Hy Hf; [destruct Hx |].
  simpl in Hnd. apply NoDup_cons in Hnd as [Ha Hnd].
  rewrite list_elem_of_In in Ha.
  destruct Hx as [<- | Hx], Hy as [<- | Hy].
  - reflexivity.
  - exfalso. apply Ha. rewrite Hf. now apply in_map.
  - exfalso. apply Ha. rewrite <- Hf. now apply in_map.
  - now apply IH.
Qed.

Lemma sort_values_sorted (df : list Daily.t) :
  StronglySorted
    (fun a b => (Daily.created_date a <= Daily.created_date b)%Z)
    (sort_values_created_date df).
Proof.
  eapply StronglySorted_weaken; [| apply stable_sort_sorted].
  - intros a b H. apply Z.leb_le. exact H.
  - intros a b. rewrite !Z.leb_le. lia.
  - intros a b c. rewrite !Z.leb_le. lia.
Qed.

(** X14. The trend charts do not depend on the order of the rows returned
    by the warehouse: when no date occurs twice, every permutation of the
    table gives the same sorted series, the same moving average and the same
    two figures. *)
Theorem trend_independent_of_row_order (df1 df2 : list Daily.t)
    (Hperm : Permutation df1 df2)
    (Hdates : NoDup (map Daily.created_date df1)) :
  sort_values_created_date df1 = sort_values_created_date df2
  /\ ma7 df1 = ma7 df2
  /\ fig_volume_trend df1 = fig_volume_trend df2
  /\ fig_csat_trend df1 = fig_csat_trend df2.
Proof.
  assert (Hs : sort_values_created_date df1 = sort_values_created_date df2).
  { apply (StronglySorted_unique_strong
             (fun a b => (Daily.created_date a <= Daily.created_date b)%Z));
      try apply sort_values_sorted.
    - intros x1 x2 H1 H2 Hle Hge.
      apply list_elem_of_In in H1, H2.
      apply (Permutation_in _ (stable_sort_perm _ df1)) in H1.
      apply (Permutation_in _ (stable_sort_perm _ df2)) in H2.
      apply (Permutation_in _ (Permutation_sym Hperm)) in H2.
      apply (NoDup_map_inj Daily.created_date df1); auto. lia.
    - unfold sort_values_created_date.
      now rewrite !stable_sort_perm. }
  unfold ma7, fig_volume_trend, fig_csat_trend, ma7. cbv zeta.
  rewrite Hs. repeat split.
Qed.

Lemma trend_independent_of_row_order_witness :
  Permutation sample_daily (rev sample_daily)
  /\ NoDup (map Daily.created_date sample_daily)
  /\ ma7 sample_daily = ma7 (rev sample_daily).
Proof.
  assert (Hnd : NoDup (map Daily.created_date sample_daily)).
  { simpl. repeat constructor; rewrite ?list_elem_of_In; simpl;
      intuition discriminate. }
  split; [apply Permutation_rev |]. split; [exact Hnd |].
  apply (trend_independent_of_row_order sample_daily (rev sample_daily)
           (Permutation_rev _) Hnd).
Defined.

Lemma sum_Z_bounds (lo hi : Z) (l : list Z) :
  (forall x, In x l -> lo <= x <= hi)%Z ->
  (lo * Z.of_nat (length l) <= sum_Z l <= hi * Z.of_nat (length l))%Z.
Proof.
  unfold sum_Z. induction l as [|x l IH]; intros H; [simpl; lia |].
  assert (Hx := H x (or_introl eq_refl)).
  assert (Hl : (forall y, In y l -> lo <= y <= hi)%Z)
    by (intros y Hy; apply H; now right).
  specialize (IH Hl). simpl foldr. simpl length. lia.
Qed.

Lemma mean_bounds (lo hi : Z) (l : list Z) :
  l <> [] -> (forall x, In x l -> lo <= x <= hi)%Z ->
  (inject_Z lo <= mean l)%Q /\ (mean l <= inject_Z hi)%Q.
Proof.
  intros Hne H. pose proof (sum_Z_bounds lo hi l H) as [Hlo Hhi].
  unfold mean. rewrite Qred_correct. unfold Qle. simpl.
  assert (Hp : Z.pos (Pos.of_nat (length l)) = Z.of_nat (length l)).
  { destruct l as [|x l]; [congruence |]. simpl length.
    rewrite <- Pos.of_nat_succ. lia. }
  rewrite Hp. lia.
Qed.

(** X15. The moving average stays within the data: when every
    [ticket_count] of the table lies between [lo] and [hi], so does every
    defined value of the 7-day average. *)
Theorem ma7_within_data_range (daily_df : list Daily.t) (lo hi : Z)
    (Hrange : forall r, In r daily_df ->
                (lo <= Daily.ticket_count r <= hi)%Z)
    (a : Q) (Ha : In (Some a) (ma7 daily_df)) :
  (inject_Z lo <= a)%Q /\ (a <= inject_Z hi)%Q.
Proof.
  unfold ma7, rolling_mean in Ha. apply in_map_iff in Ha as (i & Hi & _).
  cbv zeta in Hi.
  set (w := drop (S i - 7)
              (take (S i)
                 (map Daily.ticket_count (sort_values_created_date daily_df))))
    in *.
  destruct (Nat.ltb_spec (length w) 7) as [Hlt | Hge]; [discriminate Hi |].
  injection Hi as <-.
  apply mean_bounds.
  - intros ->. simpl in Hge. lia.
  - intros x Hx. subst w.
    apply list_elem_of_In in Hx.
    apply (subseteq_drop _ _ _) in Hx. apply (subseteq_take _ _ _) in Hx.
    apply list_elem_of_In, in_map_iff in Hx as (r & <- & Hr).
    apply Hrange.
    exact (Permutation_in _ (stable_sort_perm _ daily_df) Hr).
Qed.

Lemma ma7_within_data_range_witness :
  In (Some 8%Q) (ma7 sample_daily)
  /\ (inject_Z 2 <= 8)%Q /\ (8 <= inject_Z 14)%Q.
Proof.
  assert (Hin : In (Some 8%Q) (ma7 sample_daily))
    by (vm_compute; do 6 right; left; reflexivity).
  split; [exact Hin |].
  apply (ma7_within_data_range sample_daily 2 14); [| exact Hin].
  intros r [<- | [<- | [<- | [<- | [<- | [<- | [<- | []]]]]]]];
    simpl; lia.
Defined.

(** ** Leaderboards and figures *)

(** X16. When the latest month has at most ten agents the tickets
    leaderboard shows every one of them, and when at most five agents have
    10 tickets or more the CSAT chart shows every one of those, also the
    ones without a CSAT rate. *)
Theorem small_leaderboards_show_everyone (agent_df : list Agent.t) :
  ((length (current_month agent_df) <= 10)%nat ->
   Permutation (top_agents agent_df) (current_month agent_df))
  /\ ((length (csat_eligible agent_df) <= 5)%nat ->
      Permutation (top_csat agent_df) (csat_eligible agent_df)).
Proof.
  unfold top_agents, top_csat, nlargest. split; intros Hlen.
  - rewrite firstn_all2
      by (rewrite (Permutation_length (stable_sort_perm _ _)); exact Hlen).
    apply stable_sort_perm.
  - rewrite firstn_all2
      by (rewrite (Permutation_length (stable_sort_perm _ _)); exact Hlen).
    apply stable_sort_perm.
Qed.

Lemma small_leaderboards_show_everyone_witness :
  (length (current_month sample_agents) <= 10)%nat
  /\ Permutation (top_agents sample_agents) (current_month sample_agents)
  /\ Permutation (top_csat sample_agents) (csat_eligible sample_agents).
Proof.
  split; [vm_compute; lia |].
  split; apply (small_leaderboards_show_everyone sample_agents);
    vm_compute; lia.
Defined.

Lemma heatmap_rows_length (heatmap_df : list Heat.t) :
  forallb (fun row =>
             (length row =? length (pivot_columns (heatmap_pivot heatmap_df)))%nat)
          (pivot_values (heatmap_pivot heatmap_df)) = true.
Proof.
  rewrite heatmap_pivot_values. apply forallb_forall. intros row Hrow.
  apply in_map_iff in Hrow as (d & <- & _).
  rewrite length_map. apply Nat.eqb_refl.
Qed.

(** X17. Every figure of the dashboard is well formed: each line has one
    value per date (also the moving average), the heatmap has one row per
    day label and one cell per hour label in every row, and each bar chart
    has one value per label. *)
Theorem dashboard_figures_well_formed (d : Loaded) :
  forallb figure_ok (figures (dashboard d)) = true.
Proof.
  assert (H1 : figure_ok (fig_volume_trend (daily_df d)) = true).
  { unfold figure_ok, fig_volume_trend, Zs, ma7, rolling_mean.
    cbn [traces forallb trace_ok].
    rewrite !length_map, length_seq, !Nat.eqb_refl. reflexivity. }
  assert (H2 : figure_ok (fig_csat_trend (daily_df d)) = true).
  { unfold figure_ok, fig_csat_trend, times100.
    cbn [traces forallb trace_ok].
    rewrite !length_map, Nat.eqb_refl. reflexivity. }
  assert (H3 : figure_ok (fig_heatmap (heatmap_df d)) = true).
  { unfold figure_ok, fig_heatmap. cbn [traces forallb trace_ok].
    rewrite length_map, heatmap_rows_length.
    rewrite heatmap_pivot_values, length_map. reflexivity. }
  assert (H4 : figure_ok (fig_categories (tag_df d)) = true).
  { unfold figure_ok, fig_categories, Zs. cbn [traces forallb trace_ok].
    rewrite !length_map, Nat.eqb_refl. reflexivity. }
  assert (H5 : figure_ok (fig_top_agents (agent_df d)) = true).
  { unfold figure_ok, fig_top_agents, Zs. cbn [traces forallb trace_ok].
    rewrite !length_map, Nat.eqb_refl. reflexivity. }
  assert (H6 : figure_ok (fig_top_csat (agent_df d)) = true).
  { unfold figure_ok, fig_top_csat, times100. cbn [traces forallb trace_ok].
    rewrite !length_map, Nat.eqb_refl. reflexivity. }
  rewrite dashboard_figures.
  destruct (died (kpi_row (stats d))); [reflexivity |].
  destruct (is_empty (agent_df d));
    [| destruct (is_empty (csat_eligible (agent_df d)))];
    cbn [app forallb];
    rewrite ?H1, ?H2, ?H3, ?H4, ?H5, ?H6; reflexivity.
Qed.

(** ** apply_dark_theme *)





(** ** Staleness *)

Lemma producer_result (env : Env) (k : QueryKey) (now : Z) (s s' : Session)
    (v : ResultT k) :
  producer env k now s = (s', Return v) -> produced_at env k now v.
Proof.
  unfold producer, bind, record_call, get_bq_client, lift. cbn [bq_client].
  destruct (bq_client s) as [c|].
  - destruct (run_query env c k now) as [e|frame] eqn:Eq; [discriminate |].
    destruct (finish k frame) as [e|v'] eqn:Ef; [discriminate |].
    intros [= _ <-]. now exists c, frame.
  - destruct (bigquery_Client env _ _) as [e|c]; [discriminate |].
    destruct (run_query env c k now) as [e|frame] eqn:Eq; [discriminate |].
    destruct (finish k frame) as [e|v'] eqn:Ef; [discriminate |].
    intros [= _ <-]. now exists c, frame.
Qed.

Lemma load_sound (env : Env) (k : QueryKey) (now : Z) (s : Session) :
  cache_sound env s ->
  cache_sound env (fst (load env k now s))
  /\ forall v, snd (load env k now s) = Return v -> recent env k now v.
Proof.
  intros Hs.
  destruct (load_cases env k now s) as [(t0 & v & He & Hlive & ->) | [_ ->]].
  - split; [exact Hs |]. intros v' [= <-]. exists t0. split; [exact Hlive |].
    now apply Hs.
  - destruct (producer_effect env k now s) as [_ Hd].
    destruct (producer env k now s) as [s' [e|v]] eqn:Ep; cbn [fst snd] in *.
    + split; [| discriminate]. intros k' t0 v0. rewrite Hd. apply Hs.
    + pose proof (producer_result env k now s s' v Ep) as Hv.
      split.
      * intros k' t0 v0 H0.
        destruct (QueryKey_eq_dec k k') as [<- | Hne].
        -- rewrite store_lookup in H0. injection H0 as <- <-. exact Hv.
        -- rewrite store_other in H0 by exact Hne. rewrite Hd in H0.
           now apply Hs.
      * intros v' [= <-]. exists now. split; [lia | exact Hv].
Qed.

(** X19. What a render pass shows is at most 300 seconds old.  If every
    cache entry holds an answer of the warehouse stored under the time of
    its query (as in a fresh session), then each of the five tables a pass
    at [now] renders was returned by the warehouse for a query run less
    than 300 seconds before [now], and the cache keeps that property,
    whether the pass succeeds or fails. *)
Theorem render_shows_recent_data (env : Env) (now : Z) (s : Session)
    (Hsound : cache_sound env s) :
  cache_sound env (fst (main env now s))
  /\ forall d, snd (load_all env now s) = Return d ->
       recent env CurrentStats now (stats d)
       /\ recent env DailyMetrics now (daily_df d)
       /\ recent env AgentPerformance now (agent_df d)
       /\ recent env TagAnalysis now (tag_df d)
       /\ recent env HourlyHeatmap now (heatmap_df d).
Proof.
  rewrite main_state.
  unfold load_all, load_current_stats, load_daily_metrics,
    load_agent_performance, load_tag_analysis, load_hourly_heatmap, bind, ret.
  destruct (load_sound env CurrentStats now s Hsound) as [Sa Ra].
  destruct (load env CurrentStats now s) as [sa [e|va]]; cbn [fst snd] in *;
    [split; [exact Sa | discriminate] |].
  destruct (load_sound env DailyMetrics now sa Sa) as [Sb Rb].
  destruct (load env DailyMetrics now sa) as [sb [e|vb]]; cbn [fst snd] in *;
    [split; [exact Sb | discriminate] |].
  destruct (load_sound env AgentPerformance now sb Sb) as [Sc Rc].
  destruct (load env AgentPerformance now sb) as [sc [e|vc]];
    cbn [fst snd] in *; [split; [exact Sc | discriminate] |].
  destruct (load_sound env TagAnalysis now sc Sc) as [Sd Rd].
  destruct (load env TagAnalysis now sc) as [sd [e|vd]]; cbn [fst snd] in *;
    [split; [exact Sd | discriminate] |].
  destruct (load_sound env HourlyHeatmap now sd Sd) as [Se Re].
  destruct (load env HourlyHeatmap now sd) as [se [e|ve]]; cbn [fst snd] in *;
    [split; [exact Se | discriminate] |].
  split; [exact Se |].
  intros d [= <-]. cbn [stats daily_df agent_df tag_df heatmap_df].
  repeat split; auto.
Qed.

Lemma render_shows_recent_data_witness :
  cache_sound (sample_env []) empty_session
  /\ cache_sound (sample_env [])
       (fst (main (sample_env []) 0 empty_session)).
Proof.
  assert (H : cache_sound (sample_env []) empty_session)
    by (intros k t0 v H0; discriminate H0).
  split; [exact H |].
  apply (render_shows_recent_data (sample_env []) 0 empty_session H).
Defined.

(** ** A NULL rate in the summary *)

(** X20. A NULL CSAT rate stops the pass.  The code after the [try] block
    is not guarded: when the summary's [csat_rate] is NULL (no ticket is
    rated, as in a warehouse without tickets) the condition of the CSAT
    card raises TypeError after the header and the five columns, so the
    pass shows no card, no chart and no footer, and no error box either. *)
Theorem null_csat_rate_stops_render (d : Loaded)
    (Hnull : Stats.csat_rate (stats d) = None) :
  csat_card (stats d) = Raise "boolean value of NA is ambiguous"
  /\ dashboard d =
       [ st_columns [1; 1; 1; 1; 1]%nat;
         uncaught_exception "boolean value of NA is ambiguous" ]
  /\ (forall env now s s',
        load_all env now s = (s', Return d) ->
        snd (main env now s) =
          [ st_markdown header_html;
            st_columns [1; 1; 1; 1; 1]%nat;
            uncaught_exception "boolean value of NA is ambiguous" ]).
Proof.
  assert (Hcard : csat_card (stats d)
                  = Raise "boolean value of NA is ambiguous").
  { unfold csat_card, csat_delta, csat_above_65. now rewrite Hnull. }
  assert (Hdash : dashboard d =
            [ st_columns [1; 1; 1; 1; 1]%nat;
              uncaught_exception "boolean value of NA is ambiguous" ]).
  { unfold dashboard, kpi_row. rewrite Hcard. reflexivity. }
  split; [exact Hcard |]. split; [exact Hdash |].
  intros env now s s' Hload. unfold main. rewrite Hload, Hdash. reflexivity.
Qed.

Lemma null_csat_rate_stops_render_witness :
  Stats.csat_rate (stats loaded_without_tickets) = None
  /\ load_all env_without_tickets 0 empty_session
     = (fst (load_all env_without_tickets 0 empty_session),
        Return loaded_without_tickets)
  /\ snd (main env_without_tickets 0 empty_session) =
       [ st_markdown header_html;
         st_columns [1; 1; 1; 1; 1]%nat;
         uncaught_exception "boolean value of NA is ambiguous" ].
Proof.
  split; [reflexivity |]. split; [reflexivity |].
  destruct (null_csat_rate_stops_render loaded_without_tickets eq_refl)
    as (_ & _ & H).
  apply (H env_without_tickets 0%Z empty_session
           (fst (load_all env_without_tickets 0 empty_session))).
  reflexivity.
Defined.
